(** * qe_apidoc: the documentation-stub generator of QuantEcon.py

    A shallow embedding of [docs/qe_apidoc.py].  The script scans the
    package tree [../quantecon] with [glob], derives module names from
    the file names it finds and writes reStructuredText stubs and index
    files below [source/].

    Modelling choices.
    - A Python [str] is a [string]; comparison is [String.compare], the
      order of the character codes, which is how Python orders [str].
    - The scanned package tree is a finite map from a directory path to
      the entries of that directory, in the order the operating system
      lists them.  A path that is not a key is a directory that does
      not exist.
    - The output file system is a record of the directories and of the
      regular files (path to content) that exist.  It is threaded
      through the program as explicit state.
    - A Python exception raised by the program text ([ValueError] of
      [list.remove], [NameError] of an unbound global) ends the run; the
      state reached at that point is kept.  Failures of the operating
      system (permissions, full disk, a directory where a file is
      expected) are outside the model: creating a directory and opening
      a file for writing always succeed. *)

From Stdlib Require Import Ascii String.
From stdpp Require Import gmap strings list sorting.

Local Open Scope string_scope.

(** ** Python primitives used by the script *)

Module Py.

(** The newline character of the templates. *)
Definition LF : string := String (ascii_of_nat 10) "".

(** [s.split(sep)] for a one-character separator: never empty. *)
Fixpoint split (sep : ascii) (s : string) : list string :=
  match s with
  | "" => [""]
  | String c r =>
      if decide (c = sep) then "" :: split sep r
      else match split sep r with
           | h :: t => String c h :: t
           | [] => [String c ""]
           end
  end.

(** [l[-1]] and [l[0]] on the result of [split], which is never the
    empty list (lemma [split_not_nil]); the default is never used. *)
Definition item_last (l : list string) : string := List.last l "".
Definition item_first (l : list string) : string := List.hd "" l.

(** [s[:-3]]: the slice up to [max (len s - 3) 0]. *)
Definition drop_last3 (s : string) : string :=
  String.substring 0 (String.length s - 3) s.

(** [s * n]. *)
Fixpoint mul (s : string) (n : nat) : string :=
  match n with
  | O => ""
  | S k => s +:+ mul s k
  end.

(** [sep.join(l)]. *)
Definition join (sep : string) (l : list string) : string :=
  String.concat sep l.

(** [s.startswith(p)] and [s.endswith(p)]. *)
Fixpoint startswith (s p : string) {struct p} : bool :=
  match p with
  | "" => true
  | String a p' =>
      match s with
      | "" => false
      | String b s' => Ascii.eqb a b && startswith s' p'
      end
  end.

Fixpoint endswith (s p : string) : bool :=
  String.eqb s p ||
  match s with
  | "" => false
  | String _ r => endswith r p
  end.

(** [s.capitalize()]: the first character in upper case and every
    other character in LOWER case.  Exact on ASCII text, which is all
    the script capitalizes. *)
Definition upper (c : ascii) : ascii :=
  let n := nat_of_ascii c in
  if (97 <=? n)%nat && (n <=? 122)%nat then ascii_of_nat (n - 32) else c.

Definition lower (c : ascii) : ascii :=
  let n := nat_of_ascii c in
  if (65 <=? n)%nat && (n <=? 90)%nat then ascii_of_nat (n + 32) else c.

Fixpoint map_chars (f : ascii → ascii) (s : string) : string :=
  match s with
  | "" => ""
  | String c r => String (f c) (map_chars f r)
  end.

Definition capitalize (s : string) : string :=
  match s with
  | "" => ""
  | String c r => String (upper c) (map_chars lower r)
  end.

(** [l.remove(x)]: drops the first occurrence; [None] stands for the
    [ValueError] raised when there is none. *)
Fixpoint list_remove (x : string) (l : list string) : option (list string) :=
  match l with
  | [] => None
  | y :: r =>
      if decide (y = x) then Some r
      else (y ::.) <$> list_remove x r
  end.

(** [l.sort()] on strings: the ascending rearrangement of [l]. *)
Definition sort (l : list string) : list string := merge_sort String.le l.

(** [a < b] on [str]. *)
Definition lt (a b : string) : Prop := String.ltb a b = true.

(** [x in l]. *)
Definition contains (x : string) (l : list string) : bool :=
  bool_decide (x ∈ l).

(** [os.path.join(a, *ps)] of posixpath. *)
Definition path_join_step (path b : string) : string :=
  if startswith b "/" then b
  else if String.eqb path "" || endswith path "/" then path +:+ b
  else path +:+ "/" +:+ b.

Definition path_join (a : string) (ps : list string) : string :=
  foldl path_join_step a ps.

End Py.

(** ** The scanned package tree and [glob] *)

(** Directory path to directory entries, in listing order. *)
Abbreviation SourceTree := (gmap string (list string)).

Definition listdir (tree : SourceTree) (d : string) : list string :=
  default [] (tree !! d).

(** The character class [[a-z0-9]] of the pattern. *)
Definition in_class (c : ascii) : bool :=
  let n := nat_of_ascii c in
  ((97 <=? n)%nat && (n <=? 122)%nat) || ((48 <=? n)%nat && (n <=? 57)%nat).

(** [fnmatch(name, "[a-z0-9]*.py")]: one character of the class, then
    anything, then [.py] at the end. *)
Definition matches_py (name : string) : bool :=
  match name with
  | "" => false
  | String c r => in_class c && Py.endswith r ".py"
  end.

(** [glob(d + "/[a-z0-9]*.py")]: the matching entries of [d], each
    joined to [d], in listing order; empty when [d] does not exist. *)
Definition glob_py (tree : SourceTree) (d : string) : list string :=
  (λ n, d +:+ "/" +:+ n) <$> filter (λ n, matches_py n = true) (listdir tree d).

(** Whether the character [c] occurs in [s]. *)
Fixpoint has_char (c : ascii) (s : string) : bool :=
  match s with
  | "" => false
  | String a r => bool_decide (a = c) || has_char c r
  end.

(** What a real directory listing satisfies: the entries are pairwise
    distinct and no entry contains the path separator. *)
Definition no_slash (n : string) : Prop :=
  has_char "/" n = false.

Definition wf_listing (l : list string) : Prop :=
  NoDup l ∧ Forall no_slash l.

Definition wf_tree (tree : SourceTree) : Prop :=
  ∀ d l, tree !! d = Some l → wf_listing l.

(** The same directories with the same entries, listed in any order. *)
Definition same_entries (t1 t2 : SourceTree) : Prop :=
  ∀ d, listdir t1 d ≡ₚ listdir t2 d.

(** ** String templates (lines 47-146) *)

(** A triple-quoted literal: every line of it ends with a newline. *)
Definition text (lines : list string) : string :=
  foldr (λ l acc, l +:+ Py.LF +:+ acc) "" lines.

(** The four stub templates differ in the dotted prefix only. *)
Definition stub_template (dotted : string) (mod_name equals : string) : string :=
  text [ mod_name;
         equals;
         "";
         ".. automodule:: " +:+ dotted +:+ mod_name;
         "    :members:";
         "    :undoc-members:";
         "    :show-inheritance:" ].

Definition module_template := stub_template "quantecon.".
Definition game_theory_module_template := stub_template "quantecon.game_theory.".
Definition markov_module_template := stub_template "quantecon.markov.".
Definition random_module_template := stub_template "quantecon.random.".
Definition util_module_template := stub_template "quantecon.util.".

Definition all_index_template (generated : string) : string :=
  text [ "=======================";
         "QuantEcon documentation";
         "=======================";
         "";
         "Auto-generated documentation by module:";
         "";
         ".. toctree::";
         "   :maxdepth: 2";
         "";
         "   " +:+ generated;
         "";
         "";
         "Indices and tables";
         "==================";
         "";
         "* :ref:`genindex`";
         "* :ref:`modindex`";
         "* :ref:`search`" ].

Definition split_index_template : string :=
  text [ "=======================";
         "QuantEcon documentation";
         "=======================";
         "";
         "The `quantecon` python library consists of a number of modules which";
         "includes game theory (game_theory), markov chains (markov), random";
         "generation utilities (random), a collection of tools (tools),";
         "and other utilities (util) which are";
         "mainly used by developers internal to the package.";
         "";
         ".. toctree::";
         "   :maxdepth: 2";
         "";
         "   game_theory";
         "   markov";
         "   random";
         "   tools";
         "   util";
         "";
         "Indices and tables";
         "==================";
         "";
         "* :ref:`genindex`";
         "* :ref:`modindex`";
         "* :ref:`search`" ].

Definition split_file_template (name equals files : string) : string :=
  text [ name;
         equals;
         "";
         ".. toctree::";
         "   :maxdepth: 2";
         "";
         "   " +:+ files ].

(** ** The output file system and the monad of the script *)

Record FS : Type := mkFS {
  dirs : gset string;
  files : gmap string string
}.

Definition empty_fs : FS := mkFS ∅ ∅.

Inductive exn : Type :=
| ValueError
| NameError
| KeyError
| FileExistsError.

Inductive outcome (A : Type) : Type :=
| Ok (a : A)
| Raise (e : exn).
Arguments Ok {A} a.
Arguments Raise {A} e.

(** A computation reads and updates the output file system and either
    returns or raises; the state reached is returned in both cases. *)
Definition M (A : Type) : Type := FS → outcome A * FS.

#[global] Instance M_ret : MRet M := λ A a fs, (Ok a, fs).

#[global] Instance M_bind : MBind M := λ A B k m fs,
  match m fs with
  | (Ok a, fs') => k a fs'
  | (Raise e, fs') => (Raise e, fs')
  end.

Definition raise {A} (e : exn) : M A := λ fs, (Raise e, fs).

(** [for x in l: body(x)]. *)
Fixpoint for_ {A} (l : list A) (body : A → M unit) : M unit :=
  match l with
  | [] => mret ()
  | x :: r => body x ;; for_ r body
  end.

(** [p] and every ancestor of [p], outermost first. *)
Fixpoint dir_chain (acc : string) (segs : list string) : list string :=
  match segs with
  | [] => []
  | s :: r => let p := Py.path_join_step acc s in p :: dir_chain p r
  end.

Definition ancestors (p : string) : list string :=
  dir_chain "" (Py.split "/" p).

Definition exists_in (p : string) (fs : FS) : bool :=
  bool_decide (p ∈ dirs fs) || bool_decide (is_Some (files fs !! p)).

(** [os.path.exists(p)]. *)
Definition path_exists (p : string) : M bool :=
  λ fs, (Ok (exists_in p fs), fs).

(** [os.makedirs(p)]: creates [p] and its missing ancestors; raises
    when [p] is already there. *)
Definition makedirs (p : string) : M unit :=
  λ fs, if exists_in p fs then (Raise FileExistsError, fs)
        else (Ok (), mkFS (dirs fs ∪ list_to_set (ancestors p)) (files fs)).

(** [open(p, "w")]: the file is created or truncated; the handle is
    identified with the path. *)
Definition open_w (p : string) : M string :=
  λ fs, (Ok p, mkFS (dirs fs) (<[p := ""]> (files fs))).

(** [f.write(s)] on the handle [f]: appends to the content. *)
Definition fwrite (f : string) (s : string) : M unit :=
  λ fs, (Ok (), mkFS (dirs fs) (<[f := default "" (files fs !! f) +:+ s]> (files fs))).

(** [with open(p, "w") as f: body(f)]. *)
Definition with_open_w (p : string) (body : string → M unit) : M unit :=
  f ← open_w p; body f.

(** [d[k]] on a dict with string keys. *)
Definition dict_get (d : gmap string string) (k : string) : M string :=
  match d !! k with
  | Some v => mret v
  | None => raise KeyError
  end.

(** ** Helper function (lines 153-154) *)

Definition source_join (f_name : string) : string :=
  Py.path_join "source" [f_name].

(** ** Flat layout: [all_auto] (lines 161-182) *)

(** [gen_module] is called on line 175, but the script neither defines
    nor imports that name: evaluating the call raises [NameError]. *)
Definition gen_module (name : string) (f : string) : M unit :=
  raise NameError.

(** Lines 177-182: the index of the flat layout. *)
Definition write_flat_index (mod_names : list string) : M unit :=
  with_open_w (source_join "index.rst") (λ index,
    let generated :=
      Py.join (Py.LF +:+ "   ")
        ((λ x, "modules/" +:+ Py.item_first (Py.split "." x)) <$> mod_names) in
    let temp := all_index_template generated in
    fwrite index temp).

Definition all_auto (tree : SourceTree) : M unit :=
  let mod_names := glob_py tree "../quantecon" in
  let mod_names := (λ x, Py.item_last (Py.split "/" x)) <$> mod_names in
  ex ← path_exists (source_join "modules");
  (if negb ex then makedirs (source_join "modules") else mret ());;
  for_ mod_names (λ mod_,
    let name := Py.item_first (Py.split "." mod_) in
    let new_path := Py.path_join "source" ["modules"; name +:+ ".rst"] in
    with_open_w new_path (λ f, gen_module name f));;
  write_flat_index mod_names.

(** ** Split layout: [model_tool] (lines 185-283) *)

(** [list(map(lambda x: x.split('/')[-1][:-3], paths))]. *)
Definition module_names (paths : list string) : list string :=
  (λ x, Py.drop_last3 (Py.item_last (Py.split "/" x))) <$> paths.

Record Groups : Type := mkGroups {
  game_theory : list string;
  markov : list string;
  random : list string;
  tools : list string;
  util : list string
}.

(** Lines 186-215: the five member lists.  Nothing is written here. *)
Definition discover (tree : SourceTree) : outcome Groups :=
  let game_theory_files := glob_py tree "../quantecon/game_theory" in
  let game_theory := Py.sort (module_names game_theory_files) in
  let markov_files := glob_py tree "../quantecon/markov" in
  let markov := Py.sort (module_names markov_files) in
  let random_files := glob_py tree "../quantecon/random" in
  let random := Py.sort (module_names random_files) in
  let tool_files := glob_py tree "../quantecon" in
  let tools := module_names tool_files in
  match Py.list_remove "version" tools with
  | None => Raise ValueError
  | Some tools =>
      let tools := Py.sort tools in
      let util_files := glob_py tree "../quantecon/util" in
      let util := Py.sort (module_names util_files) in
      Ok (mkGroups game_theory markov random tools util)
  end.

Definition lift {A} (o : outcome A) : M A := λ fs, (o, fs).

(** One of the five stub loops (lines 222-254). *)
Definition write_stubs (folder : string) (template : string → string → string)
    (members : list string) : M unit :=
  for_ members (λ mod_,
    let new_path := Py.path_join "source" [folder; mod_ +:+ ".rst"] in
    with_open_w new_path (λ f,
      let equals := Py.mul "=" (String.length mod_) in
      fwrite f (template mod_ equals))).

(** ["g/" + "\n   g/".join(members)] (lines 260-264). *)
Definition toc (g : string) (members : list string) : string :=
  (g +:+ "/") +:+ Py.join (Py.LF +:+ "   " +:+ g +:+ "/") members.

Definition group_names : list string :=
  ["game_theory"; "markov"; "random"; "tools"; "util"].

(** One round of the last loop (lines 274-283). *)
Definition write_group_index (toc_tree_list : gmap string string)
    (f_name : string) : M unit :=
  with_open_w (source_join (f_name +:+ ".rst")) (λ f,
    let m_name := f_name in
    let f_name := if String.eqb f_name "game_theory" then "Game Theory" else f_name in
    let f_name := if String.eqb f_name "util" then "Utilities" else f_name in
    files_ ← dict_get toc_tree_list m_name;
    let temp := split_file_template (Py.capitalize f_name)
                  (Py.mul "=" (String.length f_name)) files_ in
    fwrite f temp).

(** Lines 217-283, run on the discovered lists. *)
Definition emit (g : Groups) : M unit :=
  for_ group_names (λ folder,
    ex ← path_exists (source_join folder);
    if negb ex then makedirs (source_join folder) else mret ());;
  write_stubs "game_theory" game_theory_module_template (game_theory g);;
  write_stubs "markov" markov_module_template (markov g);;
  write_stubs "random" random_module_template (random g);;
  write_stubs "tools" module_template (tools g);;
  write_stubs "util" util_module_template (util g);;
  with_open_w (source_join "index.rst") (λ index,
    fwrite index split_index_template);;
  let gt := toc "game_theory" (game_theory g) in
  let mark := toc "markov" (markov g) in
  let rand := toc "random" (random g) in
  let tlz := toc "tools" (tools g) in
  let utls := toc "util" (util g) in
  let toc_tree_list : gmap string string :=
    <["game_theory" := gt]> (<["markov" := mark]> (<["tools" := tlz]>
      (<["random" := rand]> (<["util" := utls]> ∅)))) in
  for_ group_names (write_group_index toc_tree_list).

Definition model_tool (tree : SourceTree) : M unit :=
  g ← lift (discover tree); emit g.

(** ** Entry point (lines 285-289) *)

Definition main (tree : SourceTree) (argv : list string) : M unit :=
  if Py.contains "single" (tail argv) then all_auto tree else model_tool tree.

(** ** The effect of a run, in closed form

    The definitions of this section describe what the statements below
    talk about: the sequence of files a run writes and the directories
    it makes sure exist.  Lemma [emit_spec] proves that [emit] has
    exactly this effect. *)

(** Writing [(path, content)] pairs in order; a later write wins. *)
Definition put (acc : gmap string string) (w : string * string) :
    gmap string string :=
  <[w.1 := w.2]> acc.

Definition apply_writes (ws : list (string * string))
    (m : gmap string string) : gmap string string :=
  foldl put m ws.

(** [if not os.path.exists(p): os.makedirs(p)] as a state change. *)
Definition ensure_dir (fs : FS) (p : string) : FS :=
  if exists_in p fs then fs
  else mkFS (dirs fs ∪ list_to_set (ancestors p)) (files fs).

Definition ensure_dirs (ps : list string) (fs : FS) : FS :=
  foldl ensure_dir fs ps.

(** The stubs written by one [write_stubs] loop. *)
Definition stub_writes (folder : string) (template : string → string → string)
    (members : list string) : list (string * string) :=
  (λ m, (Py.path_join "source" [folder; m +:+ ".rst"],
         template m (Py.mul "=" (String.length m)))) <$> members.

(** The group index written by one round of the last loop, where
    [shown] is the value of [f_name] after the two [if]s. *)
Definition group_index (m_name shown : string) (members : list string) :
    string * string :=
  (source_join (m_name +:+ ".rst"),
   split_file_template (Py.capitalize shown)
     (Py.mul "=" (String.length shown)) (toc m_name members)).

(** Everything [emit] writes, in writing order. *)
Definition writes_of (g : Groups) : list (string * string) :=
  stub_writes "game_theory" game_theory_module_template (game_theory g) ++
  stub_writes "markov" markov_module_template (markov g) ++
  stub_writes "random" random_module_template (random g) ++
  stub_writes "tools" module_template (tools g) ++
  stub_writes "util" util_module_template (util g) ++
  [ (source_join "index.rst", split_index_template);
    group_index "game_theory" "Game Theory" (game_theory g);
    group_index "markov" "markov" (markov g);
    group_index "random" "random" (random g);
    group_index "tools" "tools" (tools g);
    group_index "util" "Utilities" (util g) ].

(** The path of the stub of member [m] of the group [folder]. *)
Definition stub_path (folder m : string) : string :=
  "source/" +:+ folder +:+ "/" +:+ m +:+ ".rst".

(** The module name [all_auto] derives from a path returned by [glob]
    (lines 164 and 172). *)
Definition flat_name (x : string) : string :=
  Py.item_first (Py.split "." (Py.item_last (Py.split "/" x))).

(** The toctree entries of the flat index (line 179), one per module. *)
Definition flat_entries (mod_names : list string) : list string :=
  (λ x, "modules/" +:+ Py.item_first (Py.split "." x)) <$> mod_names.

(** A property of each of the five member lists. *)
Definition members_ok (P : list string → Prop) (g : Groups) : Prop :=
  P (game_theory g) ∧ P (markov g) ∧ P (random g) ∧ P (tools g) ∧ P (util g).

(** The toctree entries of a group index, one per member. *)
Definition toc_entries (g : string) (members : list string) : list string :=
  (λ m, g +:+ "/" +:+ m) <$> members.

(** Package trees used as concrete inputs. *)
Definition sample_tree : SourceTree :=
  {[ "../quantecon" := ["foo.py"; "bar.py"; "version.py"] ]}.

Definition sample_tree_relisted : SourceTree :=
  {[ "../quantecon" := ["version.py"; "bar.py"; "foo.py"] ]}.

Definition dotted_tree : SourceTree :=
  {[ "../quantecon" := ["a.b.py"; "version.py"] ]}.

Definition one_module_tree : SourceTree :=
  {[ "../quantecon" := ["a.py"] ]}.

(** The first line of a text. *)
Definition first_line (s : string) : string :=
  Py.item_first (Py.split (ascii_of_nat 10) s).

(** The [n]-th line of a text, counted from 0. *)
Definition line (n : nat) (s : string) : string :=
  nth n (Py.split (ascii_of_nat 10) s) "".

(** The six index files of the split layout. *)
Definition index_paths : list string :=
  [ "source/index.rst"; "source/game_theory.rst"; "source/markov.rst";
    "source/random.rst"; "source/tools.rst"; "source/util.rst" ].

(** A package tree with a populated subdirectory. *)
Definition nested_tree : SourceTree :=
  {[ "../quantecon" := ["version.py"; "lqcontrol.py"; "__init__.py"];
     "../quantecon/markov" := ["ddp.py"; "core.py"; "README.md"] ]}.

(** * Facts about the string primitives *)

#[local] Arguments String.append : simpl nomatch.

Lemma append_nil_r (s : string) : s +:+ "" = s.
Proof. induction s as [|c s IH]; simpl; [done | by rewrite IH]. Qed.

Lemma append_assoc (a b c : string) : (a +:+ b) +:+ c = a +:+ (b +:+ c).
Proof. induction a as [|x a IH]; simpl; [done | by rewrite IH]. Qed.

Lemma length_append (a b : string) :
  String.length (a +:+ b) = String.length a + String.length b.
Proof. induction a as [|x a IH]; simpl; [done | by rewrite IH]. Qed.

Lemma append_inj_l (a b c : string) : a +:+ c = b +:+ c → a = b.
Proof.
  revert b. induction a as [|x a IH]; intros [|y b] H; simpl in H.
  - done.
  - apply (f_equal String.length) in H. simpl in H.
    rewrite length_append in H. lia.
  - apply (f_equal String.length) in H. simpl in H.
    rewrite length_append in H. lia.
  - injection H as -> H. f_equal. by apply IH.
Qed.

Lemma has_char_append (c : ascii) (a b : string) :
  has_char c (a +:+ b) = has_char c a || has_char c b.
Proof.
  induction a as [|x a IH]; simpl; [done|].
  by rewrite IH, orb_assoc.
Qed.

Lemma has_char_substring (c : ascii) (n m : nat) (s : string) :
  has_char c s = false → has_char c (String.substring n m s) = false.
Proof.
  revert n m. induction s as [|x s IH]; intros n m H.
  - by destruct n, m.
  - simpl in H. apply orb_false_iff in H as [Hx Hs].
    destruct n as [|n]; simpl.
    + destruct m as [|m]; simpl; [done|]. by rewrite Hx, IH.
    + by apply IH.
Qed.

Lemma substring_append_l (a b : string) :
  String.substring 0 (String.length a) (a +:+ b) = a.
Proof.
  induction a as [|x a IH]; simpl.
  - by destruct b.
  - by rewrite IH.
Qed.

Lemma drop_last3_py (m : string) : Py.drop_last3 (m +:+ ".py") = m.
Proof.
  unfold Py.drop_last3. rewrite length_append. simpl.
  replace (String.length m + 3 - 3) with (String.length m) by lia.
  apply substring_append_l.
Qed.

Lemma endswith_cons (x : ascii) (s p : string) :
  Py.endswith (String x s) p = String.eqb (String x s) p || Py.endswith s p.
Proof. done. Qed.

Lemma endswith_inv (s p : string) :
  Py.endswith s p = true → ∃ m, s = m +:+ p.
Proof.
  induction s as [|x s IH]; intros H.
  - destruct p; [by exists ""|done].
  - rewrite endswith_cons in H. apply orb_true_iff in H as [H|H].
    + apply String.eqb_eq in H as <-. by exists "".
    + destruct (IH H) as [m ->]. by exists (String x m).
Qed.

Lemma endswith_append (m p : string) : Py.endswith (m +:+ p) p = true.
Proof.
  induction m as [|x m IH].
  - change ("" +:+ p) with p.
    destruct p; [done|]. by rewrite endswith_cons, String.eqb_refl.
  - change (String x m +:+ p) with (String x (m +:+ p)).
    by rewrite endswith_cons, IH, orb_true_r.
Qed.

(** *** [split] *)

Lemma split_not_nil (sep : ascii) (s : string) : Py.split sep s ≠ [].
Proof.
  induction s as [|c s IH]; simpl; [done|].
  case_decide; [done|]. by destruct (Py.split sep s).
Qed.

Lemma split_no_sep (sep : ascii) (s : string) :
  has_char sep s = false → Py.split sep s = [s].
Proof.
  induction s as [|c s IH]; simpl; [done|].
  intros [Hc Hs]%orb_false_iff. apply bool_decide_eq_false in Hc.
  rewrite decide_False by done. by rewrite IH.
Qed.

Lemma split_has_sep (sep : ascii) (s : string) :
  has_char sep s = true → ∃ h x t, Py.split sep s = h :: x :: t.
Proof.
  induction s as [|c s IH]; simpl; [done|].
  intros H. case_decide as Hc.
  - destruct (Py.split sep s) as [|x t] eqn:E; [by apply split_not_nil in E|].
    by exists "", x, t.
  - apply orb_true_iff in H as [H|H]; [by apply bool_decide_eq_true in H|].
    destruct (IH H) as (h & x & t & ->). by exists (String c h), x, t.
Qed.

Lemma split_single (sep : ascii) (s x : string) :
  Py.split sep s = [x] → has_char sep s = false ∧ x = s.
Proof.
  intros E. destruct (has_char sep s) eqn:H.
  - apply split_has_sep in H as (h & y & t & E'). congruence.
  - rewrite (split_no_sep _ _ H) in E. by injection E as <-.
Qed.

(** The last field of a split never contains the separator. *)
Lemma item_last_split_no_sep (sep : ascii) (s : string) :
  has_char sep (Py.item_last (Py.split sep s)) = false.
Proof.
  unfold Py.item_last. induction s as [|c s IH]; simpl; [done|].
  case_decide as Hc.
  - destruct (Py.split sep s) as [|x t] eqn:E; [by apply split_not_nil in E|].
    done.
  - destruct (Py.split sep s) as [|h [|x t]] eqn:E.
    + by apply split_not_nil in E.
    + simpl in *. rewrite IH, orb_false_r. by apply bool_decide_eq_false.
    + done.
Qed.

(** The last field of [d/n] is [n] when [n] has no separator. *)
Lemma item_last_split_join (d n : string) :
  has_char "/" n = false →
  Py.item_last (Py.split "/" (d +:+ "/" +:+ n)) = n.
Proof.
  intros Hn.
  assert (Py.split "/" ("/" +:+ n) = [""; n]) as Hr.
  { simpl. by rewrite (split_no_sep _ _ Hn). }
  assert (has_char "/" ("/" +:+ n) = true) as Hc by done.
  revert Hr Hc. generalize ("/" +:+ n). intros r Hr Hc.
  unfold Py.item_last. induction d as [|c d IH]; simpl.
  - by rewrite Hr.
  - assert (has_char "/" (d +:+ r) = true) as Hs.
    { by rewrite has_char_append, Hc, orb_true_r. }
    apply split_has_sep in Hs as (h & x & t & E). rewrite E in IH |- *.
    by case_decide.
Qed.

(** The first field of a split has no separator. *)
Lemma item_first_split_no_sep (sep : ascii) (s : string) :
  has_char sep (Py.item_first (Py.split sep s)) = false.
Proof.
  unfold Py.item_first. induction s as [|c s IH]; simpl; [done|].
  case_decide as Hc; [done|].
  destruct (Py.split sep s) as [|h t] eqn:E; simpl in *.
  - rewrite orb_false_r. by apply bool_decide_eq_false.
  - rewrite IH, orb_false_r. by apply bool_decide_eq_false.
Qed.

(** The first field of a split is a prefix of the string, so it has no
    character the string does not have. *)
Lemma item_first_split_has_char (sep c : ascii) (s : string) :
  has_char c s = false →
  has_char c (Py.item_first (Py.split sep s)) = false.
Proof.
  unfold Py.item_first. induction s as [|a s IH]; simpl; [done|].
  intros [Ha Hs]%orb_false_iff. destruct (decide (a = sep)); [done|].
  destruct (Py.split sep s) as [|h t] eqn:E; simpl in *.
  - by rewrite Ha.
  - rewrite Ha. by apply IH.
Qed.

(** *** [list.remove] and [list.sort] *)

Lemma list_remove_None (x : string) (l : list string) :
  Py.list_remove x l = None ↔ x ∉ l.
Proof.
  induction l as [|y l IH]; simpl.
  - split; [intros _; apply not_elem_of_nil | done].
  - destruct (decide (y = x)) as [->|Hne].
    + split; [done|]. intros H. destruct H. apply list_elem_of_here.
    + rewrite fmap_None, IH, not_elem_of_cons. split; [by split|by intros [_ ?]].
Qed.

Lemma list_remove_Some (x : string) (l l' : list string) :
  Py.list_remove x l = Some l' → l ≡ₚ x :: l'.
Proof.
  revert l'. induction l as [|y l IH]; intros l'; simpl; [done|].
  destruct (decide (y = x)) as [->|Hne].
  - by intros [= ->].
  - intros (l0 & E & ->)%fmap_Some. rewrite (IH _ E). apply Permutation_swap.
Qed.

Lemma list_remove_is_Some (x : string) (l : list string) :
  x ∈ l → is_Some (Py.list_remove x l).
Proof.
  intros H. destruct (Py.list_remove x l) eqn:E; [done|].
  by apply list_remove_None in E.
Qed.

(** Removing from two rearrangements of one list: both fail or both
    succeed with rearrangements of one list. *)
Lemma list_remove_Permutation (x : string) (l1 l2 : list string) :
  l1 ≡ₚ l2 →
  match Py.list_remove x l1, Py.list_remove x l2 with
  | Some r1, Some r2 => r1 ≡ₚ r2
  | None, None => True
  | _, _ => False
  end.
Proof.
  intros HP.
  destruct (Py.list_remove x l1) as [r1|] eqn:E1,
           (Py.list_remove x l2) as [r2|] eqn:E2.
  - apply list_remove_Some in E1, E2.
    apply (inj (x ::.)). by rewrite <- E1, <- E2.
  - apply list_remove_Some in E1. apply list_remove_None in E2.
    destruct E2. rewrite <- HP, E1. apply list_elem_of_here.
  - apply list_remove_Some in E2. apply list_remove_None in E1.
    destruct E1. rewrite HP, E2. apply list_elem_of_here.
  - done.
Qed.

Lemma sort_Permutation (l : list string) : Py.sort l ≡ₚ l.
Proof. apply merge_sort_Permutation. Qed.

Lemma sort_Sorted (l : list string) : StronglySorted String.le (Py.sort l).
Proof. apply StronglySorted_merge_sort; apply _. Qed.

(** The sorted list depends on the members only, not on their order. *)
Lemma sort_order_independent (l1 l2 : list string) :
  l1 ≡ₚ l2 → Py.sort l1 = Py.sort l2.
Proof.
  intros HP. apply (StronglySorted_unique String.le); try apply sort_Sorted.
  by rewrite !sort_Permutation.
Qed.

Lemma le_neq_lt (a b : string) : String.le a b → a ≠ b → Py.lt a b.
Proof.
  unfold String.le, Py.lt, String.leb, String.ltb. intros Hle Hne.
  destruct (a ?= b)%string eqn:E; [|done..].
  by apply String.compare_eq_iff in E.
Qed.

Lemma lt_irrefl (a : string) : ¬ Py.lt a a.
Proof.
  unfold Py.lt, String.ltb.
  pose proof (String.compare_antisym a a) as H.
  by destruct (a ?= a)%string.
Qed.

(** Sorting a list without repetitions gives a strictly ascending list. *)
Lemma sort_strict (l : list string) :
  NoDup l → StronglySorted Py.lt (Py.sort l).
Proof.
  intros HN. rewrite <- sort_Permutation in HN.
  pose proof (sort_Sorted l) as HS.
  induction HS as [|x r HS IH Hx]; [constructor|].
  apply NoDup_cons in HN as [Hx' HN].
  constructor; [by apply IH|].
  rewrite Forall_forall in Hx |- *. intros y Hy.
  apply le_neq_lt; [by apply Hx|]. by intros ->.
Qed.

(** *** Discovery *)

Lemma wf_tree_listdir (tree : SourceTree) (d : string) :
  wf_tree tree → wf_listing (listdir tree d).
Proof.
  intros Hwf. unfold listdir. destruct (tree !! d) as [l|] eqn:E; simpl.
  - by apply (Hwf d).
  - split; constructor.
Qed.

(** A matching entry is its module name followed by [.py]. *)
Lemma matches_py_inv (n : string) :
  matches_py n = true → n = Py.drop_last3 n +:+ ".py".
Proof.
  destruct n as [|c r]; [done|]. simpl.
  intros [_ H]%andb_true_iff. apply endswith_inv in H as [m ->].
  change (String c (m +:+ ".py")) with (String c m +:+ ".py").
  by rewrite drop_last3_py.
Qed.

(** On a well-formed listing the derived names are those of the entries. *)
Lemma module_names_glob (tree : SourceTree) (d : string) :
  Forall no_slash (listdir tree d) →
  module_names (glob_py tree d) =
    Py.drop_last3 <$> filter (λ n, matches_py n = true) (listdir tree d).
Proof.
  intros HF. unfold module_names, glob_py. rewrite <- list_fmap_compose.
  apply Forall_fmap_ext_1.
  assert (Forall no_slash (filter (λ n, matches_py n = true) (listdir tree d)))
    as HF'.
  { rewrite Forall_forall in HF |- *.
    intros n [_ Hn]%list_elem_of_filter. by apply HF. }
  eapply Forall_impl; [exact HF'|]. intros n Hn. cbv [compose].
  by rewrite item_last_split_join.
Qed.

Lemma module_names_NoDup (tree : SourceTree) (d : string) :
  wf_tree tree → NoDup (module_names (glob_py tree d)).
Proof.
  intros [HN HF]%(wf_tree_listdir _ d).
  rewrite module_names_glob by done.
  apply NoDup_fmap_2_strong; [|by apply NoDup_filter].
  intros x y [Hx _]%list_elem_of_filter [Hy _]%list_elem_of_filter E.
  rewrite (matches_py_inv x), (matches_py_inv y) by done. by rewrite E.
Qed.

Lemma module_names_Permutation (t1 t2 : SourceTree) (d : string) :
  same_entries t1 t2 →
  module_names (glob_py t1 d) ≡ₚ module_names (glob_py t2 d).
Proof.
  intros H. unfold module_names, glob_py. by rewrite (H d).
Qed.

(** The discovered lists depend on the set of entries only. *)
Lemma discover_order_independent (t1 t2 : SourceTree) :
  same_entries t1 t2 → discover t1 = discover t2.
Proof.
  intros H. unfold discover.
  pose proof (list_remove_Permutation "version" _ _
                (module_names_Permutation _ _ "../quantecon" H)) as HR.
  destruct (Py.list_remove "version" (module_names (glob_py t1 "../quantecon")))
    as [r1|], (Py.list_remove "version" (module_names (glob_py t2 "../quantecon")))
    as [r2|]; try done.
  f_equal. f_equal; apply sort_order_independent;
    by try apply module_names_Permutation.
Qed.

(** * Facts about the monad and the file system *)

Lemma bind_Ok {A B} (m : M A) (k : A → M B) (fs fs' : FS) (a : A) :
  m fs = (Ok a, fs') → (m ≫= k) fs = k a fs'.
Proof. intros H. unfold mbind, M_bind. by rewrite H. Qed.

Lemma bind_Raise {A B} (m : M A) (k : A → M B) (fs fs' : FS) (e : exn) :
  m fs = (Raise e, fs') → (m ≫= k) fs = (Raise e, fs').
Proof. intros H. unfold mbind, M_bind. by rewrite H. Qed.

Lemma exists_in_spec (p : string) (fs : FS) :
  exists_in p fs = true ↔ p ∈ dirs fs ∨ is_Some (files fs !! p).
Proof.
  unfold exists_in.
  rewrite orb_true_iff, !bool_decide_eq_true. done.
Qed.

(** The guarded [makedirs] of both generators. *)
Lemma guarded_makedirs (p : string) (fs : FS) :
  (ex ← path_exists p; if negb ex then makedirs p else mret ()) fs
  = (Ok (), ensure_dir fs p).
Proof.
  unfold mbind, M_bind, path_exists, makedirs, ensure_dir.
  by destruct (exists_in p fs) eqn:E; simpl; rewrite ?E.
Qed.

Lemma guarded_makedirs_body (p : string) (fs : FS) :
  (if negb (exists_in p fs) then makedirs p else mret ()) fs
  = (Ok (), ensure_dir fs p).
Proof.
  unfold makedirs, ensure_dir.
  by destruct (exists_in p fs) eqn:E; simpl; rewrite ?E.
Qed.

Lemma for_guarded_makedirs {A} (f : A → string) (l : list A) (fs : FS) :
  for_ l (λ x, ex ← path_exists (f x);
               if negb ex then makedirs (f x) else mret ()) fs
  = (Ok (), ensure_dirs (f <$> l) fs).
Proof.
  revert fs. induction l as [|x l IH]; intros fs; simpl; [done|].
  erewrite bind_Ok by apply guarded_makedirs. apply IH.
Qed.

(** [with open(p, "w") as f: f.write(c)] leaves [c] at [p]. *)
Lemma with_open_write (p c : string) (fs : FS) :
  with_open_w p (λ f, fwrite f c) fs
  = (Ok (), mkFS (dirs fs) (<[p := c]> (files fs))).
Proof.
  unfold with_open_w, mbind, M_bind, open_w, fwrite. simpl.
  by rewrite lookup_insert_eq, insert_insert_eq.
Qed.

Lemma write_stubs_spec (folder : string) (template : string → string → string)
    (members : list string) (fs : FS) :
  write_stubs folder template members fs
  = (Ok (), mkFS (dirs fs)
              (apply_writes (stub_writes folder template members) (files fs))).
Proof.
  unfold write_stubs. revert fs.
  induction members as [|m l IH]; intros fs; simpl.
  - by destruct fs.
  - erewrite bind_Ok by apply with_open_write. by rewrite IH.
Qed.

(** *** Sequences of writes *)

Lemma apply_writes_app (ws1 ws2 : list (string * string))
    (m : gmap string string) :
  apply_writes (ws1 ++ ws2) m = apply_writes ws2 (apply_writes ws1 m).
Proof. apply foldl_app. Qed.

(** What is written does not depend on what was there. *)
Lemma apply_writes_union (ws : list (string * string))
    (m : gmap string string) :
  apply_writes ws m = apply_writes ws ∅ ∪ m.
Proof.
  revert m. induction ws as [|[p c] ws IH]; intros m; simpl.
  - by rewrite (left_id_L ∅ (∪)).
  - rewrite (IH (put m (p, c))), (IH (put ∅ (p, c))). unfold put; simpl.
    by rewrite <- (assoc_L (∪)), insert_empty, <- insert_union_singleton_l.
Qed.

Lemma apply_writes_idemp (ws : list (string * string))
    (m : gmap string string) :
  apply_writes ws (apply_writes ws m) = apply_writes ws m.
Proof.
  rewrite (apply_writes_union ws (apply_writes ws m)).
  rewrite (apply_writes_union ws m).
  by rewrite (assoc_L (∪)), (idemp_L (∪)).
Qed.

(** A path that no write names keeps its content. *)
Lemma apply_writes_frame (ws : list (string * string))
    (m : gmap string string) (p : string) :
  p ∉ ws.*1 → apply_writes ws m !! p = m !! p.
Proof.
  revert m. induction ws as [|[q c] ws IH]; intros m; simpl; [done|].
  intros [Hq Hp]%not_elem_of_cons. rewrite IH by done.
  unfold put; simpl. by rewrite lookup_insert_ne.
Qed.

Lemma apply_writes_is_Some (ws : list (string * string))
    (m : gmap string string) (p : string) :
  is_Some (m !! p) → is_Some (apply_writes ws m !! p).
Proof.
  intros H. rewrite apply_writes_union, lookup_union_is_Some. by right.
Qed.

(** *** Directories *)

Lemma ensure_dir_files (fs : FS) (p : string) :
  files (ensure_dir fs p) = files fs.
Proof. unfold ensure_dir. by destruct (exists_in p fs). Qed.

Lemma ensure_dirs_files (ps : list string) (fs : FS) :
  files (ensure_dirs ps fs) = files fs.
Proof.
  revert fs. induction ps as [|p ps IH]; intros fs; [done|].
  change (ensure_dirs (p :: ps) fs) with (ensure_dirs ps (ensure_dir fs p)).
  by rewrite IH, ensure_dir_files.
Qed.

Lemma ensure_dir_noop (fs : FS) (p : string) :
  exists_in p fs = true → ensure_dir fs p = fs.
Proof. unfold ensure_dir. by intros ->. Qed.

Lemma ensure_dir_mono (fs : FS) (p q : string) :
  exists_in q fs = true → exists_in q (ensure_dir fs p) = true.
Proof.
  unfold ensure_dir. destruct (exists_in p fs); [done|].
  rewrite !exists_in_spec. simpl. intros [H|H]; [left|by right].
  apply elem_of_union. by left.
Qed.

(** [makedirs p] creates [p] itself when [p] is in normal form. *)
Lemma ensure_dir_exists (fs : FS) (p : string) :
  p ∈ ancestors p → exists_in p (ensure_dir fs p) = true.
Proof.
  intros Hp. unfold ensure_dir. destruct (exists_in p fs) eqn:E; [done|].
  rewrite exists_in_spec. simpl. left. set_solver.
Qed.

Lemma ensure_dirs_mono (ps : list string) (fs : FS) (q : string) :
  exists_in q fs = true → exists_in q (ensure_dirs ps fs) = true.
Proof.
  revert fs. induction ps as [|p ps IH]; intros fs H; simpl; [done|].
  apply IH. by apply ensure_dir_mono.
Qed.

Lemma ensure_dirs_exists (ps : list string) (fs : FS) (q : string) :
  Forall (λ p, p ∈ ancestors p) ps → q ∈ ps →
  exists_in q (ensure_dirs ps fs) = true.
Proof.
  intros HF. revert fs. induction HF as [|p ps Hp HF IH]; intros fs Hq.
  - by apply elem_of_nil in Hq.
  - simpl. apply elem_of_cons in Hq as [->|Hq]; [|by apply IH].
    apply ensure_dirs_mono. by apply ensure_dir_exists.
Qed.

Lemma ensure_dirs_noop (ps : list string) (fs : FS) :
  Forall (λ p, exists_in p fs = true) ps → ensure_dirs ps fs = fs.
Proof.
  induction 1 as [|p ps Hp HF IH]; simpl; [done|].
  by rewrite ensure_dir_noop.
Qed.

(** Writing files never makes an existing path disappear. *)
Lemma exists_in_writes (ws : list (string * string)) (D : gset string)
    (fs : FS) (q : string) :
  dirs fs ⊆ D → exists_in q fs = true →
  exists_in q (mkFS D (apply_writes ws (files fs))) = true.
Proof.
  rewrite !exists_in_spec. simpl. intros HD [H|H]; [left; set_solver|].
  right. by apply apply_writes_is_Some.
Qed.

Lemma ensure_dir_dirs (fs : FS) (p : string) :
  dirs fs ⊆ dirs (ensure_dir fs p) ∧
  dirs (ensure_dir fs p) ⊆ dirs fs ∪ list_to_set (ancestors p).
Proof.
  unfold ensure_dir. destruct (exists_in p fs); simpl; set_solver.
Qed.

(** * The effect of the split-layout generator *)

Lemma write_group_index_spec (d : gmap string string) (f_name v : string)
    (fs : FS) :
  d !! f_name = Some v →
  write_group_index d f_name fs
  = (Ok (), mkFS (dirs fs)
      (<[source_join (f_name +:+ ".rst") :=
           let f1 := if String.eqb f_name "game_theory"
                     then "Game Theory" else f_name in
           let f2 := if String.eqb f1 "util" then "Utilities" else f1 in
           split_file_template (Py.capitalize f2)
             (Py.mul "=" (String.length f2)) v]> (files fs))).
Proof.
  intros H. unfold write_group_index, with_open_w, dict_get. rewrite H.
  cbv [mbind M_bind open_w fwrite mret M_ret dirs files].
  by rewrite lookup_insert_eq, insert_insert_eq.
Qed.

(** [emit] makes sure the five folders exist and then writes
    [writes_of g]; it never raises. *)
Lemma emit_spec (g : Groups) (fs : FS) :
  emit g fs
  = (Ok (), mkFS (dirs (ensure_dirs (source_join <$> group_names) fs))
              (apply_writes (writes_of g) (files fs))).
Proof.
  unfold emit.
  erewrite bind_Ok by apply for_guarded_makedirs.
  do 5 (erewrite bind_Ok by apply write_stubs_spec).
  erewrite bind_Ok by apply with_open_write.
  cbv zeta. cbn [dirs files]. unfold group_names. cbn [for_].
  do 4 (erewrite bind_Ok by (by apply write_group_index_spec)).
  erewrite bind_Ok by (by apply write_group_index_spec).
  rewrite ensure_dirs_files. cbv [mret M_ret]. cbn [dirs files].
  unfold writes_of. rewrite !apply_writes_app. reflexivity.
Qed.

Lemma model_tool_Ok (tree : SourceTree) (g : Groups) (fs : FS) :
  discover tree = Ok g →
  model_tool tree fs
  = (Ok (), mkFS (dirs (ensure_dirs (source_join <$> group_names) fs))
              (apply_writes (writes_of g) (files fs))).
Proof.
  intros H. unfold model_tool.
  erewrite bind_Ok by (unfold lift; by rewrite H). apply emit_spec.
Qed.

Lemma model_tool_Raise (tree : SourceTree) (e : exn) (fs : FS) :
  discover tree = Raise e → model_tool tree fs = (Raise e, fs).
Proof.
  intros H. unfold model_tool.
  erewrite bind_Raise; [done|]. unfold lift. by rewrite H.
Qed.

(** The only exception of discovery is that of [tools.remove]. *)
Lemma discover_Raise (tree : SourceTree) (e : exn) :
  discover tree = Raise e ↔
  e = ValueError ∧ "version" ∉ module_names (glob_py tree "../quantecon").
Proof.
  unfold discover. rewrite <- list_remove_None.
  destruct (Py.list_remove "version" _); split; try done.
  - by intros [_ ?].
  - by intros [= <-].
  - by intros [-> _].
Qed.

Lemma discover_Ok (tree : SourceTree) :
  "version" ∈ module_names (glob_py tree "../quantecon") →
  ∃ g, discover tree = Ok g.
Proof.
  intros [r E]%list_remove_is_Some. unfold discover. rewrite E. eauto.
Qed.

(** * Paths of the generated files *)

Lemma startswith_inv (p a : string) :
  Py.startswith p a = true → ∃ r, p = a +:+ r.
Proof.
  revert p. induction a as [|x a IH]; intros p H; [by exists p|].
  destruct p as [|y p]; simpl in H; [done|].
  apply andb_true_iff in H as [->%Ascii.eqb_eq H].
  destruct (IH _ H) as [r ->]. by exists r.
Qed.

Lemma no_slash_relative (m s : string) :
  no_slash m → Py.startswith s "/" = false →
  Py.startswith (m +:+ s) "/" = false.
Proof.
  unfold no_slash. destruct m as [|c m]; [done|].
  intros Hm _. simpl in Hm. apply orb_false_iff in Hm as [Hc _].
  apply bool_decide_eq_false in Hc.
  change (andb (Ascii.eqb "/"%char c) true = false).
  apply andb_false_iff. left. apply Ascii.eqb_neq. congruence.
Qed.

(** [os.path.join("source", folder, m + ".rst")] for a relative folder
    and a member name without separator. *)
Lemma path_join_stub (folder m : string) :
  Py.path_join_step "source" folder = "source/" +:+ folder →
  Py.endswith ("source/" +:+ folder) "/" = false →
  no_slash m →
  Py.path_join "source" [folder; m +:+ ".rst"]
  = "source/" +:+ folder +:+ "/" +:+ m +:+ ".rst".
Proof.
  intros Hf He Hm. unfold Py.path_join. cbn [foldl]. rewrite Hf.
  unfold Py.path_join_step.
  rewrite (no_slash_relative m ".rst") by done.
  by rewrite He.
Qed.

(** Module names never contain the path separator. *)
Lemma module_names_no_slash (paths : list string) :
  Forall no_slash (module_names paths).
Proof.
  unfold module_names. apply Forall_fmap, Forall_true. intros x. simpl.
  apply has_char_substring, item_last_split_no_sep.
Qed.

Lemma sort_Forall (P : string → Prop) (l : list string) :
  Forall P l → Forall P (Py.sort l).
Proof. by rewrite sort_Permutation. Qed.

(** Every member of every discovered list is free of separators. *)
Lemma discover_no_slash (tree : SourceTree) (g : Groups) :
  discover tree = Ok g → members_ok (Forall no_slash) g.
Proof.
  unfold discover.
  destruct (Py.list_remove "version" _) as [r|] eqn:E; [|done].
  intros [= <-]. unfold members_ok; simpl.
  repeat split; try (apply sort_Forall, module_names_no_slash).
  apply sort_Forall. apply list_remove_Some in E.
  pose proof (module_names_no_slash (glob_py tree "../quantecon")) as HF.
  rewrite E in HF. by apply Forall_cons in HF as [_ ?].
Qed.

Lemma stub_writes_paths (folder : string) (template : string → string → string)
    (members : list string) :
  Py.path_join_step "source" folder = "source/" +:+ folder →
  Py.endswith ("source/" +:+ folder) "/" = false →
  Forall no_slash members →
  (stub_writes folder template members).*1 = stub_path folder <$> members.
Proof.
  intros Hf He HF. unfold stub_writes. rewrite <- list_fmap_compose.
  apply Forall_fmap_ext_1. eapply Forall_impl; [exact HF|].
  intros m Hm. cbv [compose fst]. by apply path_join_stub.
Qed.

(** The paths [emit] writes to, in writing order. *)
Lemma writes_of_paths (g : Groups) :
  members_ok (Forall no_slash) g →
  (writes_of g).*1 =
    ((stub_path "game_theory" <$> game_theory g) ++
     (stub_path "markov" <$> markov g) ++
     (stub_path "random" <$> random g) ++
     (stub_path "tools" <$> tools g) ++
     (stub_path "util" <$> util g) ++
     [ "source/index.rst"; "source/game_theory.rst"; "source/markov.rst";
       "source/random.rst"; "source/tools.rst"; "source/util.rst" ])%list.
Proof.
  intros (H1 & H2 & H3 & H4 & H5). unfold writes_of.
  rewrite !fmap_app, !stub_writes_paths by done. reflexivity.
Qed.

(** The index files are written last, so their content is final. *)
Lemma writes_of_indexes (g : Groups) (m : gmap string string) :
  let fs' := apply_writes (writes_of g) m in
  fs' !! "source/index.rst" = Some split_index_template ∧
  fs' !! "source/game_theory.rst" =
    Some (split_file_template "Game theory" "==========="
            (toc "game_theory" (game_theory g))) ∧
  fs' !! "source/markov.rst" =
    Some (split_file_template "Markov" "======" (toc "markov" (markov g))) ∧
  fs' !! "source/random.rst" =
    Some (split_file_template "Random" "======" (toc "random" (random g))) ∧
  fs' !! "source/tools.rst" =
    Some (split_file_template "Tools" "=====" (toc "tools" (tools g))) ∧
  fs' !! "source/util.rst" =
    Some (split_file_template "Utilities" "=========" (toc "util" (util g))).
Proof.
  cbv zeta. unfold writes_of. rewrite !apply_writes_app.
  generalize (apply_writes (stub_writes "util" util_module_template (util g))
    (apply_writes (stub_writes "tools" module_template (tools g))
    (apply_writes (stub_writes "random" random_module_template (random g))
    (apply_writes (stub_writes "markov" markov_module_template (markov g))
    (apply_writes (stub_writes "game_theory" game_theory_module_template
                     (game_theory g)) m))))).
  intros m0. unfold apply_writes, put, group_index. cbn [foldl fst snd].
  change (source_join "index.rst") with "source/index.rst".
  change (source_join ("game_theory" +:+ ".rst")) with "source/game_theory.rst".
  change (source_join ("markov" +:+ ".rst")) with "source/markov.rst".
  change (source_join ("random" +:+ ".rst")) with "source/random.rst".
  change (source_join ("tools" +:+ ".rst")) with "source/tools.rst".
  change (source_join ("util" +:+ ".rst")) with "source/util.rst".
  repeat split;
    repeat (rewrite lookup_insert_ne by discriminate);
    by rewrite lookup_insert_eq.
Qed.

Lemma concat_cons2 (sep a b : string) (l : list string) :
  String.concat sep (a :: b :: l) = a +:+ sep +:+ String.concat sep (b :: l).
Proof. done. Qed.

(** The toctree body of a group index in terms of its entries. *)
Lemma toc_spec (g : string) (members : list string) :
  toc g members =
    match members with
    | [] => g +:+ "/"
    | _ => Py.join (Py.LF +:+ "   ") (toc_entries g members)
    end.
Proof.
  unfold toc, toc_entries, Py.join.
  destruct members as [|m l]; [apply append_nil_r|].
  revert m. induction l as [|m' l IH]; intros m.
  - apply append_assoc.
  - specialize (IH m'). rewrite !fmap_cons in IH |- *.
    rewrite concat_cons2, fmap_cons, concat_cons2, <- IH.
    by rewrite !append_assoc.
Qed.

(** * The effect of the flat-layout generator *)

Lemma flat_name_no_slash (x : string) : no_slash (flat_name x).
Proof. apply item_first_split_has_char, item_last_split_no_sep. Qed.

(** With nothing discovered the loop body is never run and the index is
    written with an empty toctree. *)
Lemma all_auto_empty (tree : SourceTree) (fs : FS) :
  glob_py tree "../quantecon" = [] →
  all_auto tree fs
  = (Ok (), mkFS (dirs (ensure_dir fs "source/modules"))
              (<["source/index.rst" :=
                   all_index_template (Py.join (Py.LF +:+ "   ") [])]>
                 (files fs))).
Proof.
  intros H. unfold all_auto. rewrite H. cbn [fmap list_fmap for_].
  erewrite bind_Ok by reflexivity.
  erewrite bind_Ok by apply guarded_makedirs_body.
  erewrite bind_Ok by reflexivity.
  unfold write_flat_index. cbv zeta.
  rewrite with_open_write. by rewrite ensure_dir_files.
Qed.

(** With anything discovered the first round of the loop opens the stub
    of the first module and stops at the call of [gen_module]. *)
Lemma all_auto_nonempty (tree : SourceTree) (fs : FS) (x : string)
    (l : list string) :
  glob_py tree "../quantecon" = x :: l →
  all_auto tree fs
  = (Raise NameError,
     mkFS (dirs (ensure_dir fs "source/modules"))
          (<[stub_path "modules" (flat_name x) := ""]> (files fs))).
Proof.
  intros H. unfold all_auto. rewrite H. cbn [fmap list_fmap for_].
  erewrite bind_Ok by reflexivity.
  erewrite bind_Ok by apply guarded_makedirs_body.
  erewrite bind_Raise; [reflexivity|].
  erewrite bind_Raise; [reflexivity|].
  unfold with_open_w, gen_module, raise, open_w, mbind, M_bind.
  cbn [dirs files]. rewrite ensure_dir_files.
  fold (flat_name x). rewrite path_join_stub; [done..|].
  apply flat_name_no_slash.
Qed.

(** * Inversion of the runs *)

Lemma discover_inv (tree : SourceTree) (g : Groups) :
  discover tree = Ok g →
  ∃ r, Py.list_remove "version" (module_names (glob_py tree "../quantecon"))
       = Some r ∧
    g = mkGroups
          (Py.sort (module_names (glob_py tree "../quantecon/game_theory")))
          (Py.sort (module_names (glob_py tree "../quantecon/markov")))
          (Py.sort (module_names (glob_py tree "../quantecon/random")))
          (Py.sort r)
          (Py.sort (module_names (glob_py tree "../quantecon/util"))).
Proof.
  unfold discover.
  destruct (Py.list_remove "version" _) as [r|]; [|done].
  intros [= <-]. by exists r.
Qed.

Lemma model_tool_inv (tree : SourceTree) (fs fs' : FS) :
  model_tool tree fs = (Ok (), fs') →
  ∃ g, discover tree = Ok g ∧
    fs' = mkFS (dirs (ensure_dirs (source_join <$> group_names) fs))
               (apply_writes (writes_of g) (files fs)).
Proof.
  destruct (discover tree) as [g|e] eqn:E.
  - rewrite (model_tool_Ok _ _ _ E). intros H.
    exists g. split; [reflexivity|]. congruence.
  - rewrite (model_tool_Raise _ _ _ E). intros H. congruence.
Qed.

(** Discovery comes first and touches nothing. *)
Lemma model_tool_unfold (tree : SourceTree) (fs : FS) :
  model_tool tree fs =
    match discover tree with
    | Ok g => emit g fs
    | Raise e => (Raise e, fs)
    end.
Proof. unfold model_tool, mbind, M_bind, lift. by destruct (discover tree). Qed.

Lemma wf_tree_singleton (d : string) (l : list string) :
  NoDup l → Forall no_slash l → wf_tree {[ d := l ]}.
Proof.
  intros HN HF d' l' [_ <-]%lookup_singleton_Some. by split.
Qed.

Lemma group_folders_normal :
  Forall (λ p, p ∈ ancestors p) (source_join <$> group_names).
Proof. compute_done. Qed.

(** The tools list used for writing has no entry [version]. *)
Lemma discover_tools_no_version (tree : SourceTree) (g : Groups) :
  wf_tree tree → discover tree = Ok g →
  ("version" ∉ tools g) ∧
  ("version" :: tools g) ≡ₚ module_names (glob_py tree "../quantecon").
Proof.
  intros Hwf (r & E & ->)%discover_inv. simpl.
  apply list_remove_Some in E.
  pose proof (module_names_NoDup tree "../quantecon" Hwf) as HN.
  rewrite E in HN. apply NoDup_cons in HN as [Hr _].
  rewrite sort_Permutation. by rewrite E.
Qed.

Lemma stub_path_version (folder m : string) :
  folder ∈ group_names →
  stub_path folder m = "source/tools/version.rst" →
  folder = "tools" ∧ m = "version".
Proof.
  unfold group_names, stub_path. rewrite !elem_of_cons, elem_of_nil.
  intros [->|[->|[->|[->|[->|[]]]]]] H; simpl in H; try discriminate.
  split; [done|]. apply (append_inj_l _ _ ".rst"). by simplify_eq.
Qed.

(** No write of [emit] goes to the stub of [version]. *)
Lemma writes_of_no_version (g : Groups) :
  members_ok (Forall no_slash) g → "version" ∉ tools g →
  "source/tools/version.rst" ∉ (writes_of g).*1.
Proof.
  intros Hok Hv. rewrite writes_of_paths by done.
  rewrite !elem_of_app, !list_elem_of_fmap.
  intros [(m & E & _)|[(m & E & _)|[(m & E & _)|[(m & E & Hm)|[(m & E & _)|H]]]]];
    try (symmetry in E; apply stub_path_version in E as [? ?];
         [discriminate || (subst; done) | compute_done]).
  revert H. rewrite !elem_of_cons, elem_of_nil.
  intros [H|[H|[H|[H|[H|[H|[]]]]]]]; discriminate.
Qed.

Lemma toc_entries_version (members : list string) :
  "tools/version" ∈ toc_entries "tools" members → "version" ∈ members.
Proof.
  unfold toc_entries. intros (m & E & Hm)%list_elem_of_fmap.
  simpl in E. by simplify_eq.
Qed.

(** A successful run of discovery gives strictly ascending lists. *)
Lemma discover_strict (tree : SourceTree) (g : Groups) :
  wf_tree tree → discover tree = Ok g →
  members_ok (StronglySorted Py.lt) g.
Proof.
  intros Hwf (r & E & ->)%discover_inv. unfold members_ok; simpl.
  repeat split; try (apply sort_strict; by apply module_names_NoDup).
  apply sort_strict. apply list_remove_Some in E.
  pose proof (module_names_NoDup tree "../quantecon" Hwf) as HN.
  rewrite E in HN. by apply NoDup_cons in HN as [_ ?].
Qed.

(** * The claims *)

(** C1.  In split-layout mode the entry ["version"] is removed from the
    discovered tools list before the list is sorted and written: when
    the discovered list contains it, the run completes, the tools list
    it uses is the discovered one without ["version"], no stub
    [source/tools/version.rst] is written and [tools.rst] has no
    toctree entry [tools/version]; when the discovered list does not
    contain it, the run aborts with the [ValueError] of [list.remove]. *)
Theorem C1_version_removed (tree : SourceTree) (fs : FS) :
  wf_tree tree →
  ("version" ∉ module_names (glob_py tree "../quantecon") →
     model_tool tree fs = (Raise ValueError, fs)) ∧
  ("version" ∈ module_names (glob_py tree "../quantecon") →
     ∃ g fs',
       discover tree = Ok g ∧ model_tool tree fs = (Ok (), fs') ∧
       ("version" :: tools g) ≡ₚ module_names (glob_py tree "../quantecon") ∧
       ("version" ∉ tools g) ∧
       files fs' !! "source/tools/version.rst"
         = files fs !! "source/tools/version.rst" ∧
       files fs' !! "source/tools.rst"
         = Some (split_file_template "Tools" "====="
                   (toc "tools" (tools g))) ∧
       "tools/version" ∉ toc_entries "tools" (tools g)).
Proof.
  intros Hwf. split.
  - intros Hv. apply model_tool_Raise. by apply discover_Raise.
  - intros [g E]%discover_Ok.
    destruct (discover_tools_no_version _ _ Hwf E) as [Hv HP].
    eexists g, _. split; [exact E|]. split; [by apply model_tool_Ok|].
    split; [exact HP|]. split; [exact Hv|]. cbn [files].
    split; [|split].
    + apply apply_writes_frame, writes_of_no_version; [|exact Hv].
      by apply (discover_no_slash tree).
    + apply writes_of_indexes.
    + intros H. by apply toc_entries_version in H.
Qed.

(** C5.  Each of the five member lists of a split-layout run, as used
    for the stubs and the group toctrees, is strictly ascending in the
    order of [str]. *)
Theorem C5_member_lists_sorted (tree : SourceTree) (fs fs' : FS) :
  wf_tree tree →
  model_tool tree fs = (Ok (), fs') →
  ∃ g, discover tree = Ok g ∧
    files fs' = apply_writes (writes_of g) (files fs) ∧
    StronglySorted Py.lt (game_theory g) ∧
    StronglySorted Py.lt (markov g) ∧
    StronglySorted Py.lt (random g) ∧
    StronglySorted Py.lt (tools g) ∧
    StronglySorted Py.lt (util g).
Proof.
  intros Hwf (g & E & ->)%model_tool_inv. exists g.
  split; [exact E|]. split; [reflexivity|].
  by apply (discover_strict tree).
Qed.

(** C10.  Discovery and the removal of ["version"] come before any
    output: a run whose discovered tools list lacks ["version"] aborts
    with the output file system exactly as it found it. *)
Theorem C10_abort_leaves_output_untouched (tree : SourceTree) (fs : FS) :
  "version" ∉ module_names (glob_py tree "../quantecon") →
  discover tree = Raise ValueError ∧
  model_tool tree fs = (Raise ValueError, fs).
Proof.
  intros Hv. assert (discover tree = Raise ValueError) as E
    by by apply discover_Raise.
  split; [exact E|]. by apply model_tool_Raise.
Qed.

(** C8.  The top-level index of a split-layout run is the fixed text
    [split_index_template], whatever was discovered; the entries of its
    toctree are the five group names. *)
Theorem C8_top_index_fixed (tree : SourceTree) (fs fs' : FS) :
  model_tool tree fs = (Ok (), fs') →
  files fs' !! "source/index.rst" = Some split_index_template ∧
  take 5 (drop 13 (Py.split (ascii_of_nat 10) split_index_template))
    = (λ g, "   " +:+ g) <$> group_names.
Proof.
  intros (g & E & ->)%model_tool_inv. split.
  - apply writes_of_indexes.
  - vm_compute. reflexivity.
Qed.

(** C6.  The split-layout generator is idempotent and does not depend
    on the listing order: run again on its own output, on the same
    entries listed in any order, it gives the same result and leaves
    every file and directory as the first run left it. *)
Theorem C6_model_tool_idempotent (t t' : SourceTree) (fs : FS) :
  same_entries t t' →
  model_tool t' fs = model_tool t fs ∧
  model_tool t' (model_tool t fs).2 = model_tool t fs.
Proof.
  intros Hs. pose proof (discover_order_independent t t' Hs) as Hd.
  destruct (discover t) as [g|e] eqn:E; symmetry in Hd.
  - rewrite (model_tool_Ok t g fs E), (model_tool_Ok t' g fs Hd).
    split; [reflexivity|]. cbn [snd].
    rewrite (model_tool_Ok t' g _ Hd). cbn [dirs files].
    rewrite apply_writes_idemp. rewrite ensure_dirs_noop; [reflexivity|].
    pose proof group_folders_normal as HF.
    rewrite Forall_forall in HF |- *. intros p Hp.
    pose proof (exists_in_writes (writes_of g)
      (dirs (ensure_dirs (source_join <$> group_names) fs))
      (ensure_dirs (source_join <$> group_names) fs) p) as Hq.
    rewrite ensure_dirs_files in Hq. apply Hq; [reflexivity|].
    apply ensure_dirs_exists; [|exact Hp].
    rewrite Forall_forall. exact HF.
  - rewrite (model_tool_Raise t e fs E), (model_tool_Raise t' e fs Hd).
    split; [reflexivity|]. cbn [snd]. apply (model_tool_Raise t' e fs Hd).
Qed.

(** * Frame of the flat layout *)

Lemma ancestors_modules :
  ancestors "source/modules" = ["source"; "source/modules"].
Proof. vm_compute. reflexivity. Qed.

(** Whatever is discovered, [all_auto] touches one file, which is the
    index or a stub below [source/modules/]. *)
Lemma all_auto_shape (tree : SourceTree) (fs : FS) :
  ∃ k v,
    (all_auto tree fs).2
      = mkFS (dirs (ensure_dir fs "source/modules")) (<[k := v]> (files fs)) ∧
    (k = "source/index.rst" ∨ Py.startswith k "source/modules/" = true).
Proof.
  destruct (glob_py tree "../quantecon") as [|x l] eqn:G.
  - rewrite (all_auto_empty _ _ G). eexists _, _. split; [reflexivity|].
    by left.
  - rewrite (all_auto_nonempty _ _ _ _ G). eexists _, _.
    split; [reflexivity|]. by right.
Qed.

Lemma group_path_outside (g p : string) :
  g ∈ group_names →
  p = "source/" +:+ g ∨ p = "source/" +:+ g +:+ ".rst" ∨
    Py.startswith p ("source/" +:+ g +:+ "/") = true →
  p ≠ "source/index.rst" ∧ Py.startswith p "source/modules/" = false ∧
  p ≠ "source" ∧ p ≠ "source/modules".
Proof.
  unfold group_names. rewrite !elem_of_cons, elem_of_nil.
  intros [->|[->|[->|[->|[->|[]]]]]] [->|[->|[r ->]%startswith_inv]];
    by repeat split.
Qed.

(** C9.  With ["single"] among the arguments after the program name
    the flat-layout operation runs.  It changes no file other than
    [source/index.rst] and the files below [source/modules/], and no
    directory other than [source] and [source/modules]; in particular
    no group directory, group index or file below a group directory is
    created or modified.  Without ["single"] the split-layout operation
    runs. *)
Theorem C9_single_selects_flat (tree : SourceTree) (argv : list string)
    (fs : FS) :
  ("single" ∈ tail argv →
     main tree argv fs = all_auto tree fs ∧
     (∀ p, p ≠ "source/index.rst" →
           Py.startswith p "source/modules/" = false →
           files (main tree argv fs).2 !! p = files fs !! p) ∧
     (∀ d, d ≠ "source" → d ≠ "source/modules" →
           d ∈ dirs (main tree argv fs).2 ↔ d ∈ dirs fs) ∧
     (∀ g p, g ∈ group_names →
           p = "source/" +:+ g ∨ p = "source/" +:+ g +:+ ".rst" ∨
             Py.startswith p ("source/" +:+ g +:+ "/") = true →
           files (main tree argv fs).2 !! p = files fs !! p ∧
           (p ∈ dirs (main tree argv fs).2 ↔ p ∈ dirs fs))) ∧
  ("single" ∉ tail argv → main tree argv fs = model_tool tree fs).
Proof.
  unfold main, Py.contains. split; intros Hs.
  - rewrite bool_decide_eq_true_2 by done.
    destruct (all_auto_shape tree fs) as (k & v & -> & Hk). cbn [dirs files].
    assert (∀ p, p ≠ "source/index.rst" →
                 Py.startswith p "source/modules/" = false →
                 <[k := v]> (files fs) !! p = files fs !! p) as Hfiles.
    { intros p Hp1 Hp2. apply lookup_insert_ne.
      destruct Hk as [->| Hk]; congruence. }
    assert (∀ d, d ≠ "source" → d ≠ "source/modules" →
                 d ∈ dirs (ensure_dir fs "source/modules") ↔ d ∈ dirs fs)
      as Hdirs.
    { intros d Hd1 Hd2.
      destruct (ensure_dir_dirs fs "source/modules") as [H1 H2].
      rewrite ancestors_modules in H2. split; [|by apply H1].
      intros [Hd|Hd%elem_of_list_to_set]%H2%elem_of_union; [done|].
      revert Hd. rewrite !elem_of_cons, elem_of_nil.
      intros [->|[->|[]]]; done. }
    split; [reflexivity|]. split; [exact Hfiles|]. split; [exact Hdirs|].
    intros g p Hg Hp.
    destruct (group_path_outside g p Hg Hp) as (? & ? & ? & ?).
    split; [by apply Hfiles | by apply Hdirs].
  - by rewrite bool_decide_eq_false_2.
Qed.

(** * Empty discovery *)

(** C4 (as amended).  In flat-layout mode an empty discovery is not an
    error: the run completes and writes an index whose toctree is the
    join of no entries.  In split-layout mode the run completes exactly
    when the discovered tools list contains ["version"], whatever the
    other globs yield; so an empty tools discovery aborts the run. *)
Theorem C4_empty_discovery (tree : SourceTree) (fs : FS) :
  (glob_py tree "../quantecon" = [] →
     ∃ fs', all_auto tree fs = (Ok (), fs') ∧
       files fs' !! "source/index.rst"
         = Some (all_index_template (Py.join (Py.LF +:+ "   ") [])) ∧
       ∀ p, p ≠ "source/index.rst" → files fs' !! p = files fs !! p) ∧
  ((∃ fs', model_tool tree fs = (Ok (), fs')) ↔
     "version" ∈ module_names (glob_py tree "../quantecon")).
Proof.
  split.
  - intros G. rewrite (all_auto_empty _ _ G). eexists. split; [reflexivity|].
    cbn [files]. split; [apply lookup_insert_eq|].
    intros p Hp. by apply lookup_insert_ne.
  - split.
    + intros [fs' H]. destruct (decide ("version" ∈
        module_names (glob_py tree "../quantecon"))) as [|Hv]; [done|].
      assert (discover tree = Raise ValueError) as E
        by by apply discover_Raise.
      rewrite (model_tool_Raise _ _ _ E) in H. congruence.
    + intros [g E]%discover_Ok. rewrite (model_tool_Ok _ _ _ E). by eexists.
Qed.

(** C4, as stated, fails: the empty package tree yields an empty module
    list in every glob, and the split-layout run raises. *)
Lemma C4_counterexample :
  glob_py ∅ "../quantecon" = [] ∧
  glob_py ∅ "../quantecon/util" = [] ∧
  model_tool ∅ empty_fs = (Raise ValueError, empty_fs).
Proof.
  split; [reflexivity|]. split; [reflexivity|].
  apply model_tool_Raise. vm_compute. reflexivity.
Qed.

(** * Titles of the group indexes *)

Lemma first_line_append (a r : string) :
  has_char (ascii_of_nat 10) a = false →
  first_line (a +:+ Py.LF +:+ r) = a.
Proof.
  unfold first_line, Py.item_first, Py.LF.
  induction a as [|c a IH]; intros H.
  - reflexivity.
  - simpl in H. apply orb_false_iff in H as [Hc Ha].
    apply bool_decide_eq_false in Hc. specialize (IH Ha).
    change (String c a +:+ ?x) with (String c (a +:+ x)).
    cbn [Py.split]. rewrite decide_False by done.
    destruct (Py.split _ _) as [|h t]; simpl in *; by rewrite ?IH.
Qed.

(** The title line of each group index, for every completed run. *)
Lemma group_index_titles (tree : SourceTree) (fs fs' : FS) :
  model_tool tree fs = (Ok (), fs') →
  first_line <$> files fs' !! "source/game_theory.rst" = Some "Game theory" ∧
  first_line <$> files fs' !! "source/markov.rst" = Some "Markov" ∧
  first_line <$> files fs' !! "source/random.rst" = Some "Random" ∧
  first_line <$> files fs' !! "source/tools.rst" = Some "Tools" ∧
  first_line <$> files fs' !! "source/util.rst" = Some "Utilities".
Proof.
  intros (g & E & ->)%model_tool_inv. cbn [files].
  destruct (writes_of_indexes g (files fs)) as (_ & -> & -> & -> & -> & ->).
  unfold split_file_template, text. cbn [foldr fmap option_fmap option_map].
  by rewrite !first_line_append.
Qed.

(** C2.  The title line of [game_theory.rst] is not ["Game Theory"]:
    [capitalize] lowers every character after the first, so the run on
    the sample tree writes ["Game theory"]. *)
Theorem C2_game_theory_title :
  (model_tool sample_tree empty_fs).1 = Ok () ∧
  first_line <$> files (model_tool sample_tree empty_fs).2
                   !! "source/game_theory.rst" = Some "Game theory" ∧
  first_line <$> files (model_tool sample_tree empty_fs).2
                   !! "source/util.rst" = Some "Utilities" ∧
  Py.capitalize "Game Theory" = "Game theory" ∧
  "Game theory" ≠ "Game Theory".
Proof.
  destruct (discover_Ok sample_tree) as [g E]; [compute_done|].
  pose proof (model_tool_Ok sample_tree g empty_fs E) as H.
  destruct (group_index_titles _ _ _ H) as (Hg & _ & _ & _ & Hu).
  rewrite H. cbn [fst snd]. split; [reflexivity|].
  split; [exact Hg|]. split; [exact Hu|]. split; [reflexivity|discriminate].
Qed.

(** * The flat index *)

(** Lines 177-182, when they are reached, write one entry per module,
    in the order of the list. *)
Lemma write_flat_index_spec (mod_names : list string) (fs : FS) :
  write_flat_index mod_names fs
  = (Ok (), mkFS (dirs fs)
              (<["source/index.rst" :=
                   all_index_template
                     (Py.join (Py.LF +:+ "   ") (flat_entries mod_names))]>
                 (files fs))) ∧
  length (flat_entries mod_names) = length mod_names.
Proof.
  split; [|apply length_fmap].
  unfold write_flat_index. cbv zeta. apply with_open_write.
Qed.

(** C3.  In flat-layout mode the module name is the text before the
    FIRST dot of the file name, not the file name without [.py]: for
    [a.b.py] the stub opened is [a.rst] and the index entry is
    [modules/a], while [a.b.py] without its extension is [a.b]. *)
Theorem C3_flat_name_cut_at_first_dot :
  glob_py dotted_tree "../quantecon"
    = ["../quantecon/a.b.py"; "../quantecon/version.py"] ∧
  Py.drop_last3 "a.b.py" = "a.b" ∧
  files (all_auto dotted_tree empty_fs).2 !! "source/modules/a.rst" = Some "" ∧
  files (all_auto dotted_tree empty_fs).2 !! "source/modules/a.b.rst" = None ∧
  flat_entries ["a.b.py"] = ["modules/a"].
Proof.
  assert (glob_py dotted_tree "../quantecon"
    = ["../quantecon/a.b.py"; "../quantecon/version.py"]) as G
    by (vm_compute; reflexivity).
  split; [exact G|]. split; [reflexivity|].
  rewrite (all_auto_nonempty _ _ _ _ G). cbn [snd files].
  split; [|split].
  - apply lookup_insert_eq.
  - rewrite lookup_insert_ne by (vm_compute; discriminate).
    apply lookup_empty.
  - vm_compute. reflexivity.
Qed.

(** C7.  In flat-layout mode a run that discovers a module does not
    write [index.rst]: the first round of the stub loop calls the
    unbound name [gen_module], and the run ends there with the stub of
    that module created empty. *)
Theorem C7_flat_index_not_written :
  glob_py one_module_tree "../quantecon" = ["../quantecon/a.py"] ∧
  (all_auto one_module_tree empty_fs).1 = Raise NameError ∧
  files (all_auto one_module_tree empty_fs).2 !! "source/index.rst" = None ∧
  files (all_auto one_module_tree empty_fs).2 !! "source/modules/a.rst"
    = Some "".
Proof.
  assert (glob_py one_module_tree "../quantecon" = ["../quantecon/a.py"])
    as G by (vm_compute; reflexivity).
  split; [exact G|].
  rewrite (all_auto_nonempty _ _ _ _ G). cbn [fst snd files].
  split; [reflexivity|]. split.
  - rewrite lookup_insert_ne by (vm_compute; discriminate).
    apply lookup_empty.
  - apply lookup_insert_eq.
Qed.

(** * Concrete runs *)

Lemma sample_tree_wf : wf_tree sample_tree.
Proof. apply wf_tree_singleton; compute_done. Qed.

Lemma sample_tree_has_version :
  "version" ∈ module_names (glob_py sample_tree "../quantecon").
Proof. compute_done. Qed.

Lemma sample_run_Ok :
  model_tool sample_tree empty_fs
  = (Ok (), (model_tool sample_tree empty_fs).2).
Proof.
  destruct (discover_Ok sample_tree sample_tree_has_version) as [g E].
  by rewrite (model_tool_Ok _ _ _ E).
Qed.

Lemma sample_tree_relisted_same : same_entries sample_tree sample_tree_relisted.
Proof.
  intros d. unfold listdir, sample_tree, sample_tree_relisted.
  destruct (decide (d = "../quantecon")) as [->|Hd].
  - rewrite !lookup_singleton_eq. simpl.
    apply (reverse_Permutation ["version.py"; "bar.py"; "foo.py"]).
  - by rewrite !lookup_singleton_ne.
Qed.

Lemma one_module_tree_no_version :
  "version" ∉ module_names (glob_py one_module_tree "../quantecon").
Proof. compute_done. Qed.

(** The sample tree of the specification ([foo.py], [bar.py],
    [version.py]): the run completes and its tools list is free of
    [version]. *)
Lemma C1_witness :
  ∃ g fs',
    discover sample_tree = Ok g ∧
    model_tool sample_tree empty_fs = (Ok (), fs') ∧
    ("version" :: tools g)
      ≡ₚ module_names (glob_py sample_tree "../quantecon") ∧
    ("version" ∉ tools g) ∧
    files fs' !! "source/tools/version.rst"
      = files empty_fs !! "source/tools/version.rst" ∧
    files fs' !! "source/tools.rst"
      = Some (split_file_template "Tools" "=====" (toc "tools" (tools g))) ∧
    "tools/version" ∉ toc_entries "tools" (tools g).
Proof.
  exact (proj2 (C1_version_removed sample_tree empty_fs sample_tree_wf)
           sample_tree_has_version).
Defined.

Lemma C5_witness :
  ∃ g, discover sample_tree = Ok g ∧
    files (model_tool sample_tree empty_fs).2
      = apply_writes (writes_of g) (files empty_fs) ∧
    StronglySorted Py.lt (game_theory g) ∧
    StronglySorted Py.lt (markov g) ∧
    StronglySorted Py.lt (random g) ∧
    StronglySorted Py.lt (tools g) ∧
    StronglySorted Py.lt (util g).
Proof.
  exact (C5_member_lists_sorted sample_tree empty_fs _
           sample_tree_wf sample_run_Ok).
Defined.

Lemma C6_witness :
  model_tool sample_tree_relisted empty_fs = model_tool sample_tree empty_fs ∧
  model_tool sample_tree_relisted (model_tool sample_tree empty_fs).2
    = model_tool sample_tree empty_fs.
Proof.
  exact (C6_model_tool_idempotent sample_tree sample_tree_relisted empty_fs
           sample_tree_relisted_same).
Defined.

Lemma C8_witness :
  files (model_tool sample_tree empty_fs).2 !! "source/index.rst"
    = Some split_index_template ∧
  take 5 (drop 13 (Py.split (ascii_of_nat 10) split_index_template))
    = (λ g, "   " +:+ g) <$> group_names.
Proof.
  exact (C8_top_index_fixed sample_tree empty_fs _ sample_run_Ok).
Defined.

Lemma C9_witness :
  main sample_tree ["qe_apidoc.py"; "single"] empty_fs
    = all_auto sample_tree empty_fs ∧
  main sample_tree ["qe_apidoc.py"; "foo_bar"] empty_fs
    = model_tool sample_tree empty_fs.
Proof.
  split.
  - apply (C9_single_selects_flat sample_tree ["qe_apidoc.py"; "single"]
             empty_fs).
    vm_compute. apply list_elem_of_here.
  - apply (C9_single_selects_flat sample_tree ["qe_apidoc.py"; "foo_bar"]
             empty_fs).
    simpl. rewrite elem_of_cons, elem_of_nil.
    intros [H|[]]. discriminate H.
Defined.

Lemma C10_witness :
  discover one_module_tree = Raise ValueError ∧
  model_tool one_module_tree empty_fs = (Raise ValueError, empty_fs).
Proof.
  exact (C10_abort_leaves_output_untouched one_module_tree empty_fs
           one_module_tree_no_version).
Defined.

Lemma C4_witness :
  ∃ fs', all_auto ∅ empty_fs = (Ok (), fs') ∧
    files fs' !! "source/index.rst"
      = Some (all_index_template (Py.join (Py.LF +:+ "   ") [])) ∧
    ∀ p, p ≠ "source/index.rst" → files fs' !! p = files empty_fs !! p.
Proof.
  apply (C4_empty_discovery ∅ empty_fs). reflexivity.
Defined.

(** * Further properties of the generators *)

(** ** Lines of the generated texts *)

Lemma split_append_sep (sep : ascii) (a r : string) :
  has_char sep a = false →
  Py.split sep (a +:+ String sep r) = a :: Py.split sep r.
Proof.
  induction a as [|c a IH]; intros H.
  - change ("" +:+ String sep r) with (String sep r).
    cbn [Py.split]. by rewrite decide_True.
  - simpl in H. apply orb_false_iff in H as [Hc Ha].
    apply bool_decide_eq_false in Hc.
    change (String c a +:+ ?x) with (String c (a +:+ x)).
    cbn [Py.split]. rewrite decide_False by done. by rewrite (IH Ha).
Qed.

Lemma length_mul_eq (n : nat) : String.length (Py.mul "=" n) = n.
Proof. induction n as [|n IH]; simpl; [done | by rewrite IH]. Qed.

Lemma mul_eq_no_newline (n : nat) :
  has_char (ascii_of_nat 10) (Py.mul "=" n) = false.
Proof. induction n as [|n IH]; simpl; [done | exact IH]. Qed.

Lemma LF_append (x : string) : Py.LF +:+ x = String (ascii_of_nat 10) x.
Proof. reflexivity. Qed.

(** The stub of a module whose name holds no newline starts with the
    name, underlined by as many [=] as the name has characters. *)
Theorem stub_title_underlined (dotted m : string) :
  has_char (ascii_of_nat 10) m = false →
  line 0 (stub_template dotted m (Py.mul "=" (String.length m))) = m ∧
  line 1 (stub_template dotted m (Py.mul "=" (String.length m)))
    = Py.mul "=" (String.length m) ∧
  String.length (line 1 (stub_template dotted m (Py.mul "=" (String.length m))))
    = String.length (line 0 (stub_template dotted m
                               (Py.mul "=" (String.length m)))).
Proof.
  intros Hm. unfold line, stub_template, text. cbn [foldr].
  rewrite !LF_append. rewrite (split_append_sep _ m) by exact Hm.
  rewrite (split_append_sep _ (Py.mul "=" (String.length m)))
    by apply mul_eq_no_newline.
  cbn [nth]. by rewrite length_mul_eq.
Qed.

Lemma stub_title_underlined_witness :
  line 0 (module_template "lqcontrol" (Py.mul "=" (String.length "lqcontrol")))
    = "lqcontrol" ∧
  line 1 (module_template "lqcontrol" (Py.mul "=" (String.length "lqcontrol")))
    = "=========".
Proof.
  split;
    apply (stub_title_underlined "quantecon." "lqcontrol"); reflexivity.
Defined.

(** ** What discovery finds *)

Lemma elem_of_module_names (tree : SourceTree) (d m : string) :
  Forall no_slash (listdir tree d) →
  m ∈ module_names (glob_py tree d) ↔
    m +:+ ".py" ∈ listdir tree d ∧ matches_py (m +:+ ".py") = true.
Proof.
  intros HF. rewrite module_names_glob by exact HF.
  rewrite list_elem_of_fmap. split.
  - intros (n & -> & [Hn Hin]%list_elem_of_filter).
    rewrite <- (matches_py_inv n Hn). by split.
  - intros [Hin Hn]. exists (m +:+ ".py"). split.
    + by rewrite drop_last3_py.
    + by apply list_elem_of_filter.
Qed.

Lemma elem_of_sort (m : string) (l : list string) : m ∈ Py.sort l ↔ m ∈ l.
Proof. by rewrite sort_Permutation. Qed.

(** Membership in each discovered list, in terms of the directory
    listings. *)
Lemma members_of_groups (tree : SourceTree) (g : Groups) :
  wf_tree tree → discover tree = Ok g →
  (∀ m, m ∈ game_theory g ↔
     m +:+ ".py" ∈ listdir tree "../quantecon/game_theory" ∧
     matches_py (m +:+ ".py") = true) ∧
  (∀ m, m ∈ markov g ↔
     m +:+ ".py" ∈ listdir tree "../quantecon/markov" ∧
     matches_py (m +:+ ".py") = true) ∧
  (∀ m, m ∈ random g ↔
     m +:+ ".py" ∈ listdir tree "../quantecon/random" ∧
     matches_py (m +:+ ".py") = true) ∧
  (∀ m, m ∈ tools g ↔
     m ≠ "version" ∧ m +:+ ".py" ∈ listdir tree "../quantecon" ∧
     matches_py (m +:+ ".py") = true) ∧
  (∀ m, m ∈ util g ↔
     m +:+ ".py" ∈ listdir tree "../quantecon/util" ∧
     matches_py (m +:+ ".py") = true).
Proof.
  intros Hwf (r & E & ->)%discover_inv. cbn [game_theory markov random tools util].
  assert (∀ d, Forall no_slash (listdir tree d)) as HF
    by (intros d; by destruct (wf_tree_listdir tree d Hwf)).
  assert (∀ d m, m ∈ Py.sort (module_names (glob_py tree d)) ↔
            m +:+ ".py" ∈ listdir tree d ∧ matches_py (m +:+ ".py") = true)
    as Hsub.
  { intros d m. rewrite elem_of_sort. apply elem_of_module_names, HF. }
  split; [intros m; apply Hsub|]. split; [intros m; apply Hsub|].
  split; [intros m; apply Hsub|]. split; [|intros m; apply Hsub].
  intros m. rewrite elem_of_sort. apply list_remove_Some in E.
  pose proof (module_names_NoDup tree "../quantecon" Hwf) as HN.
  rewrite <- (elem_of_module_names tree "../quantecon" m) by apply HF.
  rewrite E in HN |- *. apply NoDup_cons in HN as [Hv _].
  rewrite elem_of_cons. split.
  - intros Hm. split; [by intros ->|by right].
  - by intros [Hne [->|Hm]].
Qed.

(** The members of a group are exactly the stems of the entries of its
    directory that match the pattern; the tools group leaves out
    ["version"] and nothing else. *)
Theorem discover_members (tree : SourceTree) (g : Groups) :
  wf_tree tree → discover tree = Ok g →
  (∀ m, m ∈ game_theory g ↔
     m +:+ ".py" ∈ listdir tree "../quantecon/game_theory" ∧
     matches_py (m +:+ ".py") = true) ∧
  (∀ m, m ∈ markov g ↔
     m +:+ ".py" ∈ listdir tree "../quantecon/markov" ∧
     matches_py (m +:+ ".py") = true) ∧
  (∀ m, m ∈ random g ↔
     m +:+ ".py" ∈ listdir tree "../quantecon/random" ∧
     matches_py (m +:+ ".py") = true) ∧
  (∀ m, m ∈ tools g ↔
     m ≠ "version" ∧ m +:+ ".py" ∈ listdir tree "../quantecon" ∧
     matches_py (m +:+ ".py") = true) ∧
  (∀ m, m ∈ util g ↔
     m +:+ ".py" ∈ listdir tree "../quantecon/util" ∧
     matches_py (m +:+ ".py") = true).
Proof. apply members_of_groups. Qed.

Lemma nested_tree_wf : wf_tree nested_tree.
Proof.
  intros d l. unfold nested_tree. rewrite lookup_insert_Some.
  intros [[_ <-]|[_ [_ <-]%lookup_singleton_Some]]; compute_done.
Qed.

Lemma nested_tree_has_version :
  "version" ∈ module_names (glob_py nested_tree "../quantecon").
Proof. compute_done. Qed.

Lemma nested_run_Ok :
  model_tool nested_tree empty_fs
  = (Ok (), (model_tool nested_tree empty_fs).2).
Proof.
  destruct (discover_Ok nested_tree nested_tree_has_version) as [g E].
  by rewrite (model_tool_Ok _ _ _ E).
Qed.

Lemma discover_members_witness :
  ∃ g, discover nested_tree = Ok g ∧
    ("ddp" ∈ markov g) ∧ ("lqcontrol" ∈ tools g) ∧ ("version" ∉ tools g).
Proof.
  destruct (discover_Ok nested_tree nested_tree_has_version) as [g E].
  exists g. split; [exact E|].
  destruct (discover_members nested_tree g nested_tree_wf E)
    as (_ & Hm & _ & Ht & _).
  split; [|split].
  - apply Hm. split; [compute_done | reflexivity].
  - apply Ht. split; [discriminate|]. split; [compute_done | reflexivity].
  - intros [Hne _]%Ht. by apply Hne.
Defined.

(** Every member of every group is a non-empty name that begins with a
    lower-case letter or a digit and holds no path separator, so
    [__init__.py] and the like never give a member. *)
Theorem discover_member_shape (tree : SourceTree) (g : Groups) (m : string) :
  wf_tree tree → discover tree = Ok g →
  m ∈ (game_theory g ++ markov g ++ random g ++ tools g ++ util g)%list →
  no_slash m ∧ ∃ c r, m = String c r ∧ in_class c = true.
Proof.
  intros Hwf E Hm. split.
  - destruct (discover_no_slash tree g E) as (H1 & H2 & H3 & H4 & H5).
    rewrite !elem_of_app in Hm. rewrite Forall_forall in H1, H2, H3, H4, H5.
    destruct Hm as [?|[?|[?|[?|?]]]]; auto.
  - assert (matches_py (m +:+ ".py") = true) as Hmatch.
    { destruct (members_of_groups tree g Hwf E) as (H1 & H2 & H3 & H4 & H5).
      rewrite !elem_of_app in Hm.
      destruct Hm as [Hm|[Hm|[Hm|[Hm|Hm]]]];
        [apply H1 in Hm|apply H2 in Hm|apply H3 in Hm
        |apply H4 in Hm|apply H5 in Hm]; tauto. }
    destruct m as [|c r]; [done|]. exists c, r. split; [done|].
    simpl in Hmatch. by apply andb_true_iff in Hmatch as [? _].
Qed.

Lemma discover_member_shape_witness :
  ∃ g, discover nested_tree = Ok g ∧ "__init__" ∉ tools g.
Proof.
  destruct (discover_Ok nested_tree nested_tree_has_version) as [g E].
  exists g. split; [exact E|]. intros Hin.
  destruct (discover_member_shape nested_tree g "__init__" nested_tree_wf E)
    as (_ & c & r & Hc & Hclass).
  - rewrite !elem_of_app. by do 3 right; left.
  - injection Hc as <- _. discriminate Hclass.
Defined.

(** ** The two ways of deriving a module name *)

(** For an entry [m.py] the flat layout derives the name [m] exactly
    when [m] holds no dot; the split layout derives [m] always. *)
Theorem flat_name_agrees (d m : string) :
  no_slash m →
  module_names [d +:+ "/" +:+ m +:+ ".py"] = [m] ∧
  (flat_name (d +:+ "/" +:+ m +:+ ".py") = m ↔ has_char "." m = false).
Proof.
  intros Hm.
  assert (has_char "/" (m +:+ ".py") = false) as Hn
    by (rewrite has_char_append; unfold no_slash in Hm; by rewrite Hm).
  split.
  - unfold module_names. cbn [fmap list_fmap].
    by rewrite item_last_split_join, drop_last3_py.
  - unfold flat_name. rewrite item_last_split_join by exact Hn. split.
    + intros <-. apply item_first_split_no_sep.
    + intros Hdot.
      change (m +:+ ".py") with (m +:+ String "." "py").
      by rewrite split_append_sep.
Qed.

Lemma flat_name_agrees_witness :
  module_names ["../quantecon/lqcontrol.py"] = ["lqcontrol"] ∧
  (flat_name "../quantecon/lqcontrol.py" = "lqcontrol" ↔
     has_char "." "lqcontrol" = false).
Proof.
  apply (flat_name_agrees "../quantecon" "lqcontrol"). reflexivity.
Defined.

(** ** The files of a split-layout run *)

Lemma stub_path_inj (folder m1 m2 : string) :
  stub_path folder m1 = stub_path folder m2 → m1 = m2.
Proof.
  unfold stub_path. intros H.
  apply (inj (String.app "source/")), (inj (String.app folder)),
    (inj (String.app "/")) in H.
  by apply append_inj_l in H.
Qed.

Lemma stub_paths_NoDup (folder : string) (l : list string) :
  NoDup l → NoDup (stub_path folder <$> l).
Proof.
  apply NoDup_fmap_2_strong. intros x y _ _. apply stub_path_inj.
Qed.

Lemma group_names_cases (f : string) :
  f ∈ group_names ↔
  f = "game_theory" ∨ f = "markov" ∨ f = "random" ∨ f = "tools" ∨ f = "util".
Proof.
  unfold group_names. rewrite !elem_of_cons, elem_of_nil. tauto.
Qed.

(** A stub path names its group, and is none of the index files. *)
Lemma stub_path_group (f1 f2 m1 m2 : string) :
  f1 ∈ group_names → f2 ∈ group_names →
  stub_path f1 m1 = stub_path f2 m2 → f1 = f2.
Proof.
  unfold stub_path.
  intros [->|[->|[->|[->| ->]]]]%group_names_cases
         [->|[->|[->|[->| ->]]]]%group_names_cases Epath;
    first [reflexivity | simpl in Epath; discriminate Epath].
Qed.

Lemma stub_path_not_index (f m : string) :
  f ∈ group_names → stub_path f m ∉ index_paths.
Proof.
  unfold index_paths, stub_path.
  intros [->|[->|[->|[->| ->]]]]%group_names_cases Hin;
    revert Hin; rewrite !elem_of_cons, elem_of_nil;
    intros [Epath|[Epath|[Epath|[Epath|[Epath|[Epath|[]]]]]]];
    simpl in Epath; discriminate Epath.
Qed.

Lemma stub_paths_disjoint (f1 f2 : string) (l1 l2 : list string) (p : string) :
  f1 ∈ group_names → f2 ∈ group_names → f1 ≠ f2 →
  p ∈ stub_path f1 <$> l1 → p ∉ stub_path f2 <$> l2.
Proof.
  intros H1 H2 Hne (m1 & -> & _)%list_elem_of_fmap (m2 & E & _)%list_elem_of_fmap.
  by apply stub_path_group in E.
Qed.

Lemma stub_paths_not_index (f : string) (l : list string) (p : string) :
  f ∈ group_names → p ∈ stub_path f <$> l → p ∉ index_paths.
Proof.
  intros Hf (m & -> & _)%list_elem_of_fmap. by apply stub_path_not_index.
Qed.

Ltac path_clash :=
  match goal with
  | Hp : ?p ∈ stub_path ?f1 <$> ?l1, Hq : ?p ∈ stub_path ?f2 <$> ?l2 |- _ =>
      exact (stub_paths_disjoint f1 f2 l1 l2 p
               ltac:(apply group_names_cases; tauto)
               ltac:(apply group_names_cases; tauto)
               ltac:(discriminate) Hp Hq)
  | Hp : ?p ∈ stub_path ?f <$> ?l, Hq : ?p ∈ index_paths |- _ =>
      exact (stub_paths_not_index f l p
               ltac:(apply group_names_cases; tauto) Hp Hq)
  end.

(** No two writes of a run go to the same path. *)
Lemma writes_of_paths_NoDup (g : Groups) :
  members_ok (Forall no_slash) g → members_ok NoDup g →
  NoDup (writes_of g).*1.
Proof.
  intros Hok (N1 & N2 & N3 & N4 & N5). rewrite writes_of_paths by exact Hok.
  fold index_paths.
  repeat (apply NoDup_app; split; [by apply stub_paths_NoDup|split]);
    try compute_done.
  all: intros p Hp; rewrite ?elem_of_app; intros Hq.
  all: repeat (destruct Hq as [Hq|Hq]; [path_clash|]).
  all: path_clash.
Qed.

(** With distinct paths, each write is what is found afterwards. *)
Lemma apply_writes_lookup (ws : list (string * string))
    (m : gmap string string) (p c : string) :
  NoDup ws.*1 → (p, c) ∈ ws → apply_writes ws m !! p = Some c.
Proof.
  revert m. induction ws as [|[q d] ws IH]; intros m HN Hin.
  - by apply elem_of_nil in Hin.
  - cbn [fmap list_fmap fst] in HN. apply NoDup_cons in HN as [Hq HN].
    apply elem_of_cons in Hin as [[= -> ->]|Hin].
    + change (apply_writes ((q, d) :: ws) m)
        with (apply_writes ws (<[q := d]> m)).
      rewrite apply_writes_frame by exact Hq. apply lookup_insert_eq.
    + by apply IH.
Qed.

Lemma discover_NoDup (tree : SourceTree) (g : Groups) :
  wf_tree tree → discover tree = Ok g → members_ok NoDup g.
Proof.
  intros Hwf (r & E & ->)%discover_inv. unfold members_ok; simpl.
  rewrite !sort_Permutation.
  repeat split; try by apply module_names_NoDup.
  apply list_remove_Some in E.
  pose proof (module_names_NoDup tree "../quantecon" Hwf) as HN.
  rewrite E in HN. by apply NoDup_cons in HN as [_ ?].
Qed.

Lemma stub_writes_elem (folder : string) (template : string → string → string)
    (members : list string) (m : string) :
  Py.path_join_step "source" folder = "source/" +:+ folder →
  Py.endswith ("source/" +:+ folder) "/" = false →
  no_slash m → m ∈ members →
  (stub_path folder m, template m (Py.mul "=" (String.length m)))
    ∈ stub_writes folder template members.
Proof.
  intros Hf He Hm Hin. unfold stub_writes. apply list_elem_of_fmap.
  exists m. split; [|exact Hin]. f_equal. unfold stub_path.
  symmetry. by apply path_join_stub.
Qed.

(** After a completed split-layout run every member of every group has
    its stub, with the content of the template of its group. *)
Theorem model_tool_stubs (tree : SourceTree) (fs fs' : FS) :
  wf_tree tree →
  model_tool tree fs = (Ok (), fs') →
  ∃ g, discover tree = Ok g ∧
    (∀ m, m ∈ game_theory g →
       files fs' !! stub_path "game_theory" m
       = Some (game_theory_module_template m (Py.mul "=" (String.length m)))) ∧
    (∀ m, m ∈ markov g →
       files fs' !! stub_path "markov" m
       = Some (markov_module_template m (Py.mul "=" (String.length m)))) ∧
    (∀ m, m ∈ random g →
       files fs' !! stub_path "random" m
       = Some (random_module_template m (Py.mul "=" (String.length m)))) ∧
    (∀ m, m ∈ tools g →
       files fs' !! stub_path "tools" m
       = Some (module_template m (Py.mul "=" (String.length m)))) ∧
    (∀ m, m ∈ util g →
       files fs' !! stub_path "util" m
       = Some (util_module_template m (Py.mul "=" (String.length m)))).
Proof.
  intros Hwf (g & E & ->)%model_tool_inv. exists g. split; [exact E|].
  pose proof (discover_no_slash tree g E) as Hok.
  pose proof (writes_of_paths_NoDup g Hok (discover_NoDup tree g Hwf E)) as HN.
  destruct Hok as (H1 & H2 & H3 & H4 & H5).
  rewrite Forall_forall in H1, H2, H3, H4, H5. cbn [files].
  repeat split; intros m Hm; apply apply_writes_lookup; try exact HN;
    unfold writes_of; rewrite !elem_of_app.
  - left. apply stub_writes_elem; auto.
  - right; left. apply stub_writes_elem; auto.
  - do 2 right; left. apply stub_writes_elem; auto.
  - do 3 right; left. apply stub_writes_elem; auto.
  - do 4 right; left. apply stub_writes_elem; auto.
Qed.

Lemma model_tool_stubs_witness :
  files (model_tool nested_tree empty_fs).2 !! "source/markov/ddp.rst"
  = Some (markov_module_template "ddp" "===").
Proof.
  destruct (model_tool_stubs nested_tree empty_fs _ nested_tree_wf nested_run_Ok)
    as (g & E & _ & Hm & _).
  apply (Hm "ddp").
  destruct (members_of_groups nested_tree g nested_tree_wf E) as (_ & Hd & _).
  apply Hd. split; [compute_done | reflexivity].
Defined.

(** ** What a split-layout run leaves alone *)

Lemma ensure_dirs_dirs (ps : list string) (fs : FS) :
  dirs fs ⊆ dirs (ensure_dirs ps fs) ∧
  dirs (ensure_dirs ps fs) ⊆ dirs fs ∪ list_to_set (ps ≫= ancestors).
Proof.
  revert fs. induction ps as [|p ps IH]; intros fs.
  - simpl. split; [done | apply union_subseteq_l].
  - change (ensure_dirs (p :: ps) fs) with (ensure_dirs ps (ensure_dir fs p)).
    destruct (IH (ensure_dir fs p)) as [H1 H2].
    destruct (ensure_dir_dirs fs p) as [H3 H4].
    rewrite bind_cons, list_to_set_app_L. split.
    + by etrans.
    + intros x Hx%H2. rewrite !elem_of_union.
      apply elem_of_union in Hx as [Hx%H4|Hx]; [|tauto].
      apply elem_of_union in Hx. tauto.
Qed.

Lemma group_folder_chain :
  (source_join <$> group_names) ≫= ancestors
  = [ "source"; "source/game_theory"; "source"; "source/markov";
      "source"; "source/random"; "source"; "source/tools";
      "source"; "source/util" ].
Proof. vm_compute. reflexivity. Qed.

Lemma stub_path_prefix (f m : string) :
  f ∈ group_names → Py.startswith (stub_path f m) ("source/" +:+ f +:+ "/") = true.
Proof.
  unfold stub_path.
  by intros [->|[->|[->|[->| ->]]]]%group_names_cases.
Qed.

(** A completed split-layout run changes no file other than the six
    index files and the files below the five group folders, and no
    directory other than [source] and the five group folders.  In
    particular it leaves the flat layout below [source/modules/]
    alone. *)
Theorem model_tool_frame (tree : SourceTree) (fs fs' : FS) :
  model_tool tree fs = (Ok (), fs') →
  (∀ p, p ∉ index_paths →
        (∀ f, f ∈ group_names →
              Py.startswith p ("source/" +:+ f +:+ "/") = false) →
        files fs' !! p = files fs !! p) ∧
  (∀ p, Py.startswith p "source/modules/" = true →
        files fs' !! p = files fs !! p) ∧
  (∀ d, d ≠ "source" → d ∉ (λ f, "source/" +:+ f) <$> group_names →
        d ∈ dirs fs' ↔ d ∈ dirs fs).
Proof.
  intros (g & E & ->)%model_tool_inv. cbn [files dirs].
  pose proof (discover_no_slash tree g E) as Hok.
  assert (∀ p, p ∉ index_paths →
            (∀ f, f ∈ group_names →
                  Py.startswith p ("source/" +:+ f +:+ "/") = false) →
            apply_writes (writes_of g) (files fs) !! p = files fs !! p)
    as Hframe.
  { intros p Hidx Hpre. apply apply_writes_frame.
    rewrite writes_of_paths by exact Hok. fold index_paths.
    rewrite !elem_of_app, !list_elem_of_fmap.
    intros [(m & -> & _)|[(m & -> & _)|[(m & -> & _)|[(m & -> & _)
           |[(m & -> & _)|Hin]]]]]; [..|by apply Hidx].
    all: match goal with
         | H : context [stub_path ?f ?m] |- _ =>
             assert (f ∈ group_names) as Hf
               by (apply group_names_cases; tauto);
             specialize (Hpre f Hf);
             by rewrite (stub_path_prefix f m Hf) in Hpre
         end. }
  split; [exact Hframe|]. split.
  - intros p [r ->]%startswith_inv. apply Hframe.
    + unfold index_paths. rewrite !elem_of_cons, elem_of_nil.
      intros [Ep|[Ep|[Ep|[Ep|[Ep|[Ep|[]]]]]]]; simpl in Ep; discriminate Ep.
    + by intros f [->|[->|[->|[->| ->]]]]%group_names_cases.
  - intros d Hd1 Hd2.
    destruct (ensure_dirs_dirs (source_join <$> group_names) fs) as [H1 H2].
    rewrite group_folder_chain in H2. split; [|by apply H1].
    intros [Hd|Hd%elem_of_list_to_set]%H2%elem_of_union; [done|].
    exfalso. revert Hd Hd2. unfold group_names. cbn [fmap list_fmap].
    rewrite !elem_of_cons, !elem_of_nil. simpl. tauto.
Qed.

Lemma model_tool_frame_witness :
  files (model_tool nested_tree empty_fs).2 !! "source/modules/lqcontrol.rst"
  = files empty_fs !! "source/modules/lqcontrol.rst".
Proof.
  apply (model_tool_frame nested_tree empty_fs _ nested_run_Ok). reflexivity.
Defined.

(** A completed split-layout run leaves each of the five group folders
    in existence, as a directory when it was not there before. *)
Theorem model_tool_folders (tree : SourceTree) (fs fs' : FS) (f : string) :
  model_tool tree fs = (Ok (), fs') →
  f ∈ group_names →
  exists_in ("source/" +:+ f) fs' = true ∧
  (exists_in ("source/" +:+ f) fs = false → "source/" +:+ f ∈ dirs fs').
Proof.
  intros (g & E & ->)%model_tool_inv Hf.
  assert ("source/" +:+ f ∈ source_join <$> group_names) as Hin.
  { apply list_elem_of_fmap. exists f. split; [|exact Hf].
    by destruct (proj1 (group_names_cases f) Hf) as [->|[->|[->|[->| ->]]]]. }
  assert (exists_in ("source/" +:+ f)
            (ensure_dirs (source_join <$> group_names) fs) = true) as Hex
    by (apply ensure_dirs_exists; [apply group_folders_normal|exact Hin]).
  split.
  - pose proof (exists_in_writes (writes_of g)
      (dirs (ensure_dirs (source_join <$> group_names) fs))
      (ensure_dirs (source_join <$> group_names) fs) ("source/" +:+ f)) as Hq.
    rewrite ensure_dirs_files in Hq. by apply Hq.
  - intros Hno. apply exists_in_spec in Hex as [Hd|Hfile]; [exact Hd|].
    rewrite ensure_dirs_files in Hfile.
    assert (exists_in ("source/" +:+ f) fs = true) as Hyes
      by (apply exists_in_spec; by right).
    congruence.
Qed.

Lemma model_tool_folders_witness :
  "source/" +:+ "markov" ∈ dirs (model_tool nested_tree empty_fs).2.
Proof.
  apply (model_tool_folders nested_tree empty_fs _ "markov" nested_run_Ok).
  - apply group_names_cases. tauto.
  - reflexivity.
Defined.



(** ** Groups without members *)

Lemma sort_nil : Py.sort [] = [].
Proof. reflexivity. Qed.

(** A group whose directory yields nothing still gets its index, and
    the toctree of that index holds the bare entry [<group>/], which
    names no stub. *)
Theorem model_tool_empty_group (tree : SourceTree) (fs fs' : FS) :
  model_tool tree fs = (Ok (), fs') →
  (glob_py tree "../quantecon/game_theory" = [] →
     files fs' !! "source/game_theory.rst"
     = Some (split_file_template "Game theory" "===========" "game_theory/")) ∧
  (glob_py tree "../quantecon/markov" = [] →
     files fs' !! "source/markov.rst"
     = Some (split_file_template "Markov" "======" "markov/")) ∧
  (glob_py tree "../quantecon/random" = [] →
     files fs' !! "source/random.rst"
     = Some (split_file_template "Random" "======" "random/")) ∧
  (module_names (glob_py tree "../quantecon") = ["version"] →
     files fs' !! "source/tools.rst"
     = Some (split_file_template "Tools" "=====" "tools/")) ∧
  (glob_py tree "../quantecon/util" = [] →
     files fs' !! "source/util.rst"
     = Some (split_file_template "Utilities" "=========" "util/")).
Proof.
  intros (g & E & ->)%model_tool_inv. cbn [files].
  destruct (writes_of_indexes g (files fs)) as (_ & -> & -> & -> & -> & ->).
  apply discover_inv in E as (r & E & ->).
  cbn [game_theory markov random tools util].
  split; [by intros ->|]. split; [by intros ->|]. split; [by intros ->|].
  split; [|by intros ->].
  intros Hv. rewrite Hv in E. simpl in E. by injection E as <-.
Qed.

Lemma model_tool_empty_group_witness :
  files (model_tool nested_tree empty_fs).2 !! "source/util.rst"
  = Some (split_file_template "Utilities" "=========" "util/").
Proof.
  apply (model_tool_empty_group nested_tree empty_fs _ nested_run_Ok).
  reflexivity.
Defined.

(** ** The flat layout, in general *)

(** The flat-layout run completes exactly when nothing is discovered. *)
Theorem all_auto_completes_iff (tree : SourceTree) (fs : FS) :
  (∃ fs', all_auto tree fs = (Ok (), fs')) ↔ glob_py tree "../quantecon" = [].
Proof.
  destruct (glob_py tree "../quantecon") as [|x l] eqn:G.
  - rewrite (all_auto_empty _ _ G). split; [done|]. intros _. by eexists.
  - rewrite (all_auto_nonempty _ _ _ _ G). split; [|done].
    intros [fs' H]. congruence.
Qed.

(** When anything is discovered the flat-layout run ends with
    [NameError]; by then the stub of the first discovered module has
    been created or emptied, and no other file, [index.rst] included,
    has been touched. *)
Theorem all_auto_aborts (tree : SourceTree) (fs : FS) (x : string)
    (l : list string) :
  glob_py tree "../quantecon" = x :: l →
  (all_auto tree fs).1 = Raise NameError ∧
  files (all_auto tree fs).2 !! stub_path "modules" (flat_name x) = Some "" ∧
  (∀ p, p ≠ stub_path "modules" (flat_name x) →
        files (all_auto tree fs).2 !! p = files fs !! p).
Proof.
  intros G. rewrite (all_auto_nonempty _ _ _ _ G). cbn [fst snd files].
  split; [reflexivity|]. split; [apply lookup_insert_eq|].
  intros p Hp. by apply lookup_insert_ne.
Qed.

Lemma all_auto_aborts_witness :
  (all_auto sample_tree empty_fs).1 = Raise NameError.
Proof.
  apply (all_auto_aborts sample_tree empty_fs "../quantecon/foo.py"
           ["../quantecon/bar.py"; "../quantecon/version.py"]).
  vm_compute. reflexivity.
Defined.

(** The flat-layout run is idempotent: run again on its own output it
    gives the same result and the same files and directories. *)
Theorem all_auto_idempotent (tree : SourceTree) (fs : FS) :
  all_auto tree (all_auto tree fs).2 = all_auto tree fs.
Proof.
  assert (∀ k v, ensure_dir
            (mkFS (dirs (ensure_dir fs "source/modules")) (<[k := v]> (files fs)))
            "source/modules"
          = mkFS (dirs (ensure_dir fs "source/modules")) (<[k := v]> (files fs)))
    as Hno.
  { intros k v. apply ensure_dir_noop.
    pose proof (exists_in_writes [(k, v)]
                  (dirs (ensure_dir fs "source/modules"))
                  (ensure_dir fs "source/modules") "source/modules") as Hq.
    rewrite ensure_dir_files in Hq. apply Hq; [reflexivity|].
    apply ensure_dir_exists. compute_done. }
  destruct (glob_py tree "../quantecon") as [|x l] eqn:G.
  - rewrite !(all_auto_empty _ _ G). cbn [snd dirs files].
    by rewrite Hno, insert_insert_eq.
  - rewrite !(all_auto_nonempty _ _ _ _ G). cbn [snd dirs files].
    by rewrite Hno, insert_insert_eq.
Qed.

(** ** No collision among the generated files *)

(** In a completed split-layout run no two writes go to the same path:
    every stub and every index file is written once, so none is
    overwritten within the run. *)
Theorem model_tool_no_collision (tree : SourceTree) (fs fs' : FS) :
  wf_tree tree →
  model_tool tree fs = (Ok (), fs') →
  ∃ g, discover tree = Ok g ∧
    files fs' = apply_writes (writes_of g) (files fs) ∧
    NoDup (writes_of g).*1 ∧
    length (writes_of g)
      = length (game_theory g) + length (markov g) + length (random g)
        + length (tools g) + length (util g) + 6.
Proof.
  intros Hwf (g & E & ->)%model_tool_inv. exists g.
  split; [exact E|]. split; [reflexivity|]. split.
  - apply writes_of_paths_NoDup.
    + by apply (discover_no_slash tree).
    + by apply (discover_NoDup tree).
  - unfold writes_of, stub_writes.
    rewrite !length_app, !length_fmap. simpl. lia.
Qed.

Lemma model_tool_no_collision_witness :
  ∃ g, discover nested_tree = Ok g ∧
    files (model_tool nested_tree empty_fs).2
      = apply_writes (writes_of g) (files empty_fs) ∧
    NoDup (writes_of g).*1 ∧
    length (writes_of g)
      = length (game_theory g) + length (markov g) + length (random g)
        + length (tools g) + length (util g) + 6.
Proof.
  exact (model_tool_no_collision nested_tree empty_fs _
           nested_tree_wf nested_run_Ok).
Defined.
